(** * BAC estimation engine: Widmark calculator, effect classifier,
      alert throttle and session monitor.

    Shallow embedding of [bac_calculator.py] and [real_time_monitor.py].

    Numbers.  Python [float] and [int] values are modelled by exact
    rationals [Q]; equality of computed numbers is [Qeq] ([==]).  A division
    whose divisor can be zero is modelled as fallible ([py_div]), as Python
    raises [ZeroDivisionError] there.  The rounding of binary64 and the
    [OverflowError] of operands beyond its range are not modelled.

    Time.  A [datetime] is a count of microseconds ([Z]); the difference of
    two of them, read with [total_seconds()], is a rational number of
    seconds.

    Dictionaries.  The drink database is a finite map from strings; the
    fixed-shape dictionaries (a drink, the effects, the thresholds, a status)
    are records with one field per key.

    Library calls.  [math.exp] is a parameter of the functions that call it;
    the values [random.uniform] draws are arguments of [update_sensors]; the
    monitoring loop is run over a finite schedule of clock values and draws,
    without the thread it lives in. *)

From Stdlib Require Import QArith Qabs Qminmax Lqa ZArith Bool Ascii String.
From stdpp Require Import gmap strings sorting.

Open Scope Q_scope.

(** ** Python primitives *)

Module Py.

(** [a < b] on numbers, as a boolean. *)
Definition ltb (a b : Q) : bool := negb (Qle_bool b a).

(** [a >= b] on numbers. *)
Definition geb (a b : Q) : bool := Qle_bool b a.

(** Truth value of a number: everything but zero. *)
Definition truthy (a : Q) : bool := negb (Qeq_bool a 0).

(** [o or d] for an optional number [o]. *)
Definition or_else (o : option Q) (d : Q) : Q :=
  match o with
  | Some a => if truthy a then a else d
  | None => d
  end.

(** [a / b], which raises when [b] is zero. *)
Definition py_div (a b : Q) : option Q :=
  if Qeq_bool b 0 then None else Some (a / b).

(** [max(0, a)]: the first argument is kept unless the second is greater. *)
Definition max0 (a : Q) : Q := if ltb 0 a then a else 0.

(** [str.lower] on one ASCII character. *)
Definition lower_ascii (c : ascii) : ascii :=
  let n := nat_of_ascii c in
  if (65 <=? n)%nat && (n <=? 90)%nat then ascii_of_nat (n + 32) else c.

(** [str.lower]. *)
Fixpoint lower (s : string) : string :=
  match s with
  | EmptyString => EmptyString
  | String c r => String (lower_ascii c) (lower r)
  end.

(** [(a - b).total_seconds()] for two datetimes in microseconds. *)
Definition total_seconds (a b : Z) : Q := inject_Z (a - b) / 1000000.

(** [max(a, b)]: [a] is kept unless [b] is greater. *)
Definition py_max (a b : Q) : Q := if ltb a b then b else a.

(** [min(a, b)]: [a] is kept unless [b] is smaller. *)
Definition py_min (a b : Q) : Q := if ltb b a then b else a.

(** [a > b] on numbers. *)
Definition gtb (a b : Q) : bool := ltb b a.

(** [timedelta(minutes=m)] in microseconds, for a whole number of minutes. *)
Definition minutes (m : Z) : Z := (m * 60000000)%Z.

End Py.

(** ** [bac_calculator.py] *)

(** An entry of the drink database, and what [add_drink] returns. *)
Record DrinkInfo : Type := mkDrinkInfo {
  alcohol_percent : Q;
  volume_oz : Q
}.

(** The dictionary [get_bac_effects] returns. *)
Record Effects : Type := mkEffects {
  level : string;
  effects : string;
  recommendation : string;
  color : string
}.

(** The attributes of a [BACCalculator] object. *)
Record BACCalculator : Type := mkBACCalculator {
  male_widmark_factor : Q;
  female_widmark_factor : Q;
  metabolism_rate : Q;
  drink_database : gmap string DrinkInfo
}.

Module Calc.

(** [BACCalculator.__init__]. *)
Definition init : BACCalculator :=
  {| male_widmark_factor := 0.68;
     female_widmark_factor := 0.55;
     metabolism_rate := 0.015;
     drink_database :=
       <["beer" := {| alcohol_percent := 5.0; volume_oz := 12.0 |}]>
       (<["wine" := {| alcohol_percent := 12.0; volume_oz := 5.0 |}]>
       (<["liquor" := {| alcohol_percent := 40.0; volume_oz := 1.5 |}]>
       (<["cocktail" := {| alcohol_percent := 15.0; volume_oz := 8.0 |}]> ∅)))
  |}.

(** The body of the loop of [calculate_bac_widmark]: the grams of ethanol
    of one drink. *)
Definition alcohol_grams (drink : DrinkInfo) : Q :=
  let volume_ml := volume_oz drink * 29.5735 in
  let alcohol_ml := volume_ml * (alcohol_percent drink / 100) in
  alcohol_ml * 0.789.

(** The loop of [calculate_bac_widmark], an accumulation from [0]. *)
Definition total_alcohol_grams (drinks : list DrinkInfo) : Q :=
  fold_left (fun acc drink => acc + alcohol_grams drink) drinks 0.

(** The conditional expression that picks the Widmark factor. *)
Definition widmark_factor (self : BACCalculator) (gender : string) : Q :=
  if String.eqb (Py.lower gender) "male"
  then male_widmark_factor self
  else female_widmark_factor self.

(** The two-phase curve applied to a peak value. *)
Definition apply_metabolism (self : BACCalculator) (peak_bac hours : Q) : Q :=
  if Qle_bool hours 0.5
  then peak_bac * (hours / 0.5)
  else
    let time_since_peak := hours - 0.5 in
    peak_bac - metabolism_rate self * time_since_peak.

(** [calculate_bac_widmark]; [None] is the [ZeroDivisionError] of the peak
    computation. *)
Definition calculate_bac_widmark (self : BACCalculator)
    (weight_lbs : Q) (gender : string) (drinks : list DrinkInfo)
    (hours_since_first_drink : Q) : option Q :=
  let weight_grams := weight_lbs * 453.592 in
  let total := total_alcohol_grams drinks in
  let factor := widmark_factor self gender in
  match Py.py_div total (factor * weight_grams) with
  | None => None
  | Some quotient =>
      let peak_bac := quotient * 100 in
      let bac := apply_metabolism self peak_bac hours_since_first_drink in
      Some (Py.max0 bac)
  end.

(** [get_bac_effects]. *)
Definition get_bac_effects (self : BACCalculator) (bac : Q) : Effects :=
  if Py.ltb bac 0.02 then
    {| level := "Sober";
       effects := "No significant effects";
       recommendation := "Safe to drive";
       color := "green" |}
  else if Py.ltb bac 0.05 then
    {| level := "Mild Impairment";
       effects := "Slight euphoria, relaxation, decreased inhibition";
       recommendation := "Exercise caution";
       color := "yellow" |}
  else if Py.ltb bac 0.08 then
    {| level := "Moderate Impairment";
       effects := "Impaired judgment, reduced coordination, slower reaction time";
       recommendation := "Do not drive";
       color := "orange" |}
  else if Py.ltb bac 0.15 then
    {| level := "High Impairment";
       effects := "Significant impairment, poor coordination, slurred speech";
       recommendation := "Do not drive, seek safe transportation";
       color := "red" |}
  else
    {| level := "Severe Impairment";
       effects := "Severe impairment, risk of alcohol poisoning";
       recommendation := "Seek medical attention if needed";
       color := "darkred" |}.

(** [calculate_sober_time]. *)
Definition calculate_sober_time (self : BACCalculator) (current_bac : Q) : Q :=
  if Qle_bool current_bac 0 then 0
  else current_bac / metabolism_rate self.

(** [add_drink] of the calculator. *)
Definition add_drink (self : BACCalculator) (drink_type : string)
    (volume_oz_arg alcohol_percent_arg : option Q) : DrinkInfo :=
  match drink_database self !! drink_type with
  | Some drink_info =>
      let drink_info :=
        match volume_oz_arg with
        | Some v =>
            if Py.truthy v
            then {| alcohol_percent := alcohol_percent drink_info; volume_oz := v |}
            else drink_info
        | None => drink_info
        end in
      let drink_info :=
        match alcohol_percent_arg with
        | Some p =>
            if Py.truthy p
            then {| alcohol_percent := p; volume_oz := volume_oz drink_info |}
            else drink_info
        | None => drink_info
        end in
      drink_info
  | None =>
      {| alcohol_percent := Py.or_else alcohol_percent_arg 5.0;
         volume_oz := Py.or_else volume_oz_arg 12.0 |}
  end.

(** [estimate_bac_from_sensors].  [exp] stands for [math.exp], taken as
    total; [now] is the clock read at the start of the call; [None] is the
    [ZeroDivisionError] of a deviation from a zero baseline.  The weight and
    the gender are received and not used. *)
Definition estimate_bac_from_sensors (exp : Q -> Q) (self : BACCalculator)
    (heart_rate skin_conductance temperature : Q)
    (baseline_hr baseline_sc baseline_temp : Q)
    (last_drink_time : Z) (weight_lbs : Q) (gender : string) (now : Z)
    : option Q :=
  let hours_since_drink := Py.total_seconds now last_drink_time / 3600 in
  hr_deviation ← Py.py_div (heart_rate - baseline_hr) baseline_hr;
  sc_deviation ← Py.py_div (skin_conductance - baseline_sc) baseline_sc;
  temp_deviation ← Py.py_div (temperature - baseline_temp) baseline_temp;
  let estimated_bac := 0 in
  let estimated_bac :=
    if Py.gtb hr_deviation 0.1
    then estimated_bac + 0.02 * hr_deviation else estimated_bac in
  let estimated_bac :=
    if Py.gtb sc_deviation 0.15
    then estimated_bac + 0.015 * sc_deviation else estimated_bac in
  let estimated_bac :=
    if Py.gtb temp_deviation 0.02
    then estimated_bac + 0.01 * temp_deviation else estimated_bac in
  let estimated_bac :=
    estimated_bac * exp (- metabolism_rate self * hours_since_drink) in
  Some (Py.max0 estimated_bac).

End Calc.

(** ** [real_time_monitor.py] *)

(** The attributes of a [SensorSimulator] object. *)
Record SensorSimulator : Type := mkSensorSimulator {
  baseline_heart_rate : Q;
  baseline_skin_conductance : Q;
  baseline_temperature : Q;
  current_heart_rate : Q;
  current_skin_conductance : Q;
  current_temperature : Q;
  alcohol_effect : Q
}.

(** A drink of the monitor's log: the calculator's dictionary with the
    [timestamp] key the monitor adds. *)
Record Drink : Type := mkDrink {
  drink_info : DrinkInfo;
  timestamp : Z
}.

(** A sample of [bac_history] and [sensor_history]. *)
Record DataPoint : Type := mkDataPoint {
  dp_timestamp : Z;
  dp_bac : Q;
  dp_heart_rate : Q;
  dp_skin_conductance : Q;
  dp_temperature : Q
}.

(** The keys of [alert_thresholds], which are also the values taken by
    [last_alert_level]. *)
Inductive AlertLevel : Type := warning | danger | critical.

#[global] Instance AlertLevel_eq_dec : EqDecision AlertLevel.
Proof. solve_decision. Defined.

(** The attributes of a [RealTimeBACMonitor] object.  [monitor_thread] only
    records whether a thread object was created; [data_queue] holds the
    samples put on the queue. *)
Record RealTimeBACMonitor : Type := mkMonitor {
  bac_calculator : BACCalculator;
  sensor_simulator : SensorSimulator;
  weight_lbs : Q;
  gender : string;
  drinks : list Drink;
  first_drink_time : option Z;
  last_drink_time : option Z;
  current_bac : Q;
  bac_history : list DataPoint;
  sensor_history : list DataPoint;
  is_monitoring : bool;
  monitor_thread : bool;
  data_queue : list DataPoint;
  alert_thresholds : AlertLevel -> Q;
  last_alert_level : option AlertLevel;
  last_alert_time : option Z;
  alert_cooldown : Q
}.

(** What the monitor prints.  The formatting of numbers and of clock times
    is left out: a line is kept as its parts. *)
Inductive Output : Type :=
  | Line (text : string)
  | Alert (at_time : Z) (level_name : string) (bac : Q) (text : string)
  | Manual (prefix : string) (bac : Q) (text : string)
  | CooldownSet (seconds : Q).

(** The sub-dictionary [sensors] of a status. *)
Record SensorStatus : Type := mkSensorStatus {
  st_heart_rate : Q;
  st_skin_conductance : Q;
  st_temperature : Q
}.

(** The dictionary [get_current_status] returns. *)
Record Status : Type := mkStatus {
  st_bac : Q;
  st_effects : Effects;
  st_sober_time_hours : Q;
  st_sensors : SensorStatus;
  st_drinks_count : nat;
  st_time_since_last_drink : Q
}.

(** The three values [update_sensors] draws with [random.uniform]. *)
Record Noise : Type := mkNoise {
  noise_hr : Q;
  noise_sc : Q;
  noise_temp : Q
}.

Module Sensor.

(** [update_sensors], given the three random draws of the call. *)
Definition update_sensors (noise : Noise) (self : SensorSimulator)
    (bac_level : Q) : SensorSimulator :=
  let hr_increase := bac_level * 20 in
  let heart_rate := baseline_heart_rate self + hr_increase + noise_hr noise in
  let sc_increase := bac_level * 3.0 in
  let skin_conductance :=
    baseline_skin_conductance self + sc_increase + noise_sc noise in
  let temp_change := bac_level * 2.0 in
  let temperature :=
    baseline_temperature self + temp_change + noise_temp noise in
  {| baseline_heart_rate := baseline_heart_rate self;
     baseline_skin_conductance := baseline_skin_conductance self;
     baseline_temperature := baseline_temperature self;
     current_heart_rate := Py.py_max 50 (Py.py_min 120 heart_rate);
     current_skin_conductance := Py.py_max 1.0 skin_conductance;
     current_temperature := Py.py_max 95.0 (Py.py_min 102.0 temperature);
     alcohol_effect := alcohol_effect self |}.


End Sensor.

Module Mon.

(** *** Methods as state transformers

    A method reads the clock, reads and assigns attributes of [self], and
    prints.  All clock reads of one call see the same instant. *)

Definition M (A : Type) : Type :=
  Z -> RealTimeBACMonitor -> A * RealTimeBACMonitor * list Output.

Definition ret {A : Type} (a : A) : M A := fun _ self => (a, self, []).

Definition bind {A B : Type} (m : M A) (k : A -> M B) : M B :=
  fun now self =>
    let '(a, self1, out1) := m now self in
    let '(b, self2, out2) := k a now self1 in
    (b, self2, out1 ++ out2).

Definition read {A : Type} (attr : RealTimeBACMonitor -> A) : M A :=
  fun _ self => (attr self, self, []).

Definition assign (upd : RealTimeBACMonitor -> RealTimeBACMonitor) : M unit :=
  fun _ self => (tt, upd self, []).

Definition datetime_now : M Z := fun now self => (now, self, []).

Definition print (o : Output) : M unit := fun _ self => (tt, self, [o]).

#[global] Instance M_ret : MRet M := @ret.
#[global] Instance M_bind : MBind M := fun A B k m => bind m k.

(** The monitor after a call, and what the call printed. *)
Definition state_after {A : Type} (m : M A) (now : Z)
    (self : RealTimeBACMonitor) : RealTimeBACMonitor := snd (fst (m now self)).

Definition printed {A : Type} (m : M A) (now : Z)
    (self : RealTimeBACMonitor) : list Output := snd (m now self).

Definition result {A : Type} (m : M A) (now : Z)
    (self : RealTimeBACMonitor) : A := fst (fst (m now self)).

(** *** Attribute assignments *)

Definition set_drinks (v : list Drink) (s : RealTimeBACMonitor) :=
  mkMonitor (bac_calculator s) (sensor_simulator s) (weight_lbs s) (gender s)
    v (first_drink_time s) (last_drink_time s) (current_bac s)
    (bac_history s) (sensor_history s) (is_monitoring s) (monitor_thread s)
    (data_queue s) (alert_thresholds s) (last_alert_level s)
    (last_alert_time s) (alert_cooldown s).

Definition set_first_drink_time (v : option Z) (s : RealTimeBACMonitor) :=
  mkMonitor (bac_calculator s) (sensor_simulator s) (weight_lbs s) (gender s)
    (drinks s) v (last_drink_time s) (current_bac s)
    (bac_history s) (sensor_history s) (is_monitoring s) (monitor_thread s)
    (data_queue s) (alert_thresholds s) (last_alert_level s)
    (last_alert_time s) (alert_cooldown s).

Definition set_last_drink_time (v : option Z) (s : RealTimeBACMonitor) :=
  mkMonitor (bac_calculator s) (sensor_simulator s) (weight_lbs s) (gender s)
    (drinks s) (first_drink_time s) v (current_bac s)
    (bac_history s) (sensor_history s) (is_monitoring s) (monitor_thread s)
    (data_queue s) (alert_thresholds s) (last_alert_level s)
    (last_alert_time s) (alert_cooldown s).

Definition set_current_bac (v : Q) (s : RealTimeBACMonitor) :=
  mkMonitor (bac_calculator s) (sensor_simulator s) (weight_lbs s) (gender s)
    (drinks s) (first_drink_time s) (last_drink_time s) v
    (bac_history s) (sensor_history s) (is_monitoring s) (monitor_thread s)
    (data_queue s) (alert_thresholds s) (last_alert_level s)
    (last_alert_time s) (alert_cooldown s).

Definition set_bac_history (v : list DataPoint) (s : RealTimeBACMonitor) :=
  mkMonitor (bac_calculator s) (sensor_simulator s) (weight_lbs s) (gender s)
    (drinks s) (first_drink_time s) (last_drink_time s) (current_bac s)
    v (sensor_history s) (is_monitoring s) (monitor_thread s)
    (data_queue s) (alert_thresholds s) (last_alert_level s)
    (last_alert_time s) (alert_cooldown s).

Definition set_sensor_history (v : list DataPoint) (s : RealTimeBACMonitor) :=
  mkMonitor (bac_calculator s) (sensor_simulator s) (weight_lbs s) (gender s)
    (drinks s) (first_drink_time s) (last_drink_time s) (current_bac s)
    (bac_history s) v (is_monitoring s) (monitor_thread s)
    (data_queue s) (alert_thresholds s) (last_alert_level s)
    (last_alert_time s) (alert_cooldown s).

Definition set_last_alert_level (v : option AlertLevel)
    (s : RealTimeBACMonitor) :=
  mkMonitor (bac_calculator s) (sensor_simulator s) (weight_lbs s) (gender s)
    (drinks s) (first_drink_time s) (last_drink_time s) (current_bac s)
    (bac_history s) (sensor_history s) (is_monitoring s) (monitor_thread s)
    (data_queue s) (alert_thresholds s) v
    (last_alert_time s) (alert_cooldown s).

Definition set_last_alert_time (v : option Z) (s : RealTimeBACMonitor) :=
  mkMonitor (bac_calculator s) (sensor_simulator s) (weight_lbs s) (gender s)
    (drinks s) (first_drink_time s) (last_drink_time s) (current_bac s)
    (bac_history s) (sensor_history s) (is_monitoring s) (monitor_thread s)
    (data_queue s) (alert_thresholds s) (last_alert_level s)
    v (alert_cooldown s).

Definition set_alert_cooldown_attr (v : Q) (s : RealTimeBACMonitor) :=
  mkMonitor (bac_calculator s) (sensor_simulator s) (weight_lbs s) (gender s)
    (drinks s) (first_drink_time s) (last_drink_time s) (current_bac s)
    (bac_history s) (sensor_history s) (is_monitoring s) (monitor_thread s)
    (data_queue s) (alert_thresholds s) (last_alert_level s)
    (last_alert_time s) v.

(** *** Constructors *)

(** [SensorSimulator.__init__]. *)
Definition sensor_init : SensorSimulator :=
  {| baseline_heart_rate := 70;
     baseline_skin_conductance := 5.0;
     baseline_temperature := 98.6;
     current_heart_rate := 70;
     current_skin_conductance := 5.0;
     current_temperature := 98.6;
     alcohol_effect := 0.0 |}.

(** The dictionary assigned to [alert_thresholds]. *)
Definition default_thresholds (l : AlertLevel) : Q :=
  match l with
  | warning => 0.05
  | danger => 0.08
  | critical => 0.15
  end.

(** [RealTimeBACMonitor.__init__]. *)
Definition init (weight : Q) (sex : string) : RealTimeBACMonitor :=
  {| bac_calculator := Calc.init;
     sensor_simulator := sensor_init;
     weight_lbs := weight;
     gender := sex;
     drinks := [];
     first_drink_time := None;
     last_drink_time := None;
     current_bac := 0.0;
     bac_history := [];
     sensor_history := [];
     is_monitoring := false;
     monitor_thread := false;
     data_queue := [];
     alert_thresholds := default_thresholds;
     last_alert_level := None;
     last_alert_time := None;
     alert_cooldown := 30 |}.

(** *** Methods *)

(** The first argument [_check_alerts] passes to [_send_alert]. *)
Definition alert_name (l : AlertLevel) : string :=
  match l with
  | warning => "WARNING"
  | danger => "DANGER"
  | critical => "CRITICAL"
  end.

(** [_send_alert]; the message is kept as the BAC and the recommendation
    it is formatted from. *)
Definition _send_alert (level_name : string) (bac : Q) (text : string)
    : M unit :=
  timestamp ← datetime_now;
  print (Alert timestamp level_name bac text).

(** The chain of comparisons of [_check_alerts] that sets
    [current_alert_level]. *)
Definition current_alert_level (self : RealTimeBACMonitor)
    : option AlertLevel :=
  if Py.geb (current_bac self) (alert_thresholds self critical)
  then Some critical
  else if Py.geb (current_bac self) (alert_thresholds self danger)
  then Some danger
  else if Py.geb (current_bac self) (alert_thresholds self warning)
  then Some warning
  else None.

(** The value of [should_alert] in [_check_alerts]. *)
Definition should_alert (self : RealTimeBACMonitor)
    (level_now : option AlertLevel) (current_time : Z) : bool :=
  if bool_decide (level_now ≠ last_alert_level self) then true
  else if bool_decide (is_Some level_now)
          && match last_alert_time self with
             | None => true
             | Some fired =>
                 Py.ltb (alert_cooldown self)
                        (Py.total_seconds current_time fired)
             end
  then true
  else false.

(** [_check_alerts]. *)
Definition _check_alerts : M unit :=
  self ← read id;
  let eff := Calc.get_bac_effects (bac_calculator self) (current_bac self) in
  current_time ← datetime_now;
  let level_now := current_alert_level self in
  if should_alert self level_now current_time
     && bool_decide (is_Some level_now)
  then
    match level_now with
    | Some l => _send_alert (alert_name l) (current_bac self) (recommendation eff)
    | None => mret tt
    end;;
    assign (set_last_alert_level level_now);;
    assign (set_last_alert_time (Some current_time))
  else mret tt.

(** [get_current_status]. *)
Definition get_current_status : M Status :=
  self ← read id;
  now ← datetime_now;
  let eff := Calc.get_bac_effects (bac_calculator self) (current_bac self) in
  let sober_time :=
    Calc.calculate_sober_time (bac_calculator self) (current_bac self) in
  mret {| st_bac := current_bac self;
          st_effects := eff;
          st_sober_time_hours := sober_time;
          st_sensors :=
            {| st_heart_rate := current_heart_rate (sensor_simulator self);
               st_skin_conductance :=
                 current_skin_conductance (sensor_simulator self);
               st_temperature := current_temperature (sensor_simulator self) |};
          st_drinks_count := length (drinks self);
          st_time_since_last_drink :=
            match last_drink_time self with
            | Some last => Py.total_seconds now last / 60
            | None => 0
            end |}.

(** [reset_session]. *)
Definition reset_session : M unit :=
  assign (set_drinks []);;
  assign (set_first_drink_time None);;
  assign (set_last_drink_time None);;
  assign (set_current_bac 0.0);;
  assign (set_bac_history []);;
  assign (set_sensor_history []);;
  assign (set_last_alert_level None);;
  assign (set_last_alert_time None);;
  print (Line "Session reset - starting fresh monitoring").

(** [check_alerts_manually]; the leading pictograph of each line is left
    out. *)
Definition check_alerts_manually : M unit :=
  self ← read id;
  let eff := Calc.get_bac_effects (bac_calculator self) (current_bac self) in
  if Py.geb (current_bac self) (alert_thresholds self critical)
  then print (Manual "CRITICAL ALERT" (current_bac self) (recommendation eff))
  else if Py.geb (current_bac self) (alert_thresholds self danger)
  then print (Manual "DANGER ALERT" (current_bac self) (recommendation eff))
  else if Py.geb (current_bac self) (alert_thresholds self warning)
  then print (Manual "WARNING" (current_bac self) (recommendation eff))
  else print (Manual "SAFE" (current_bac self) (effects eff)).

(** [set_alert_cooldown]. *)
Definition set_alert_cooldown (seconds : Q) : M unit :=
  assign (set_alert_cooldown_attr seconds);;
  print (CooldownSet seconds).

(** *** Methods that can raise

    A call that raises keeps the assignments and the lines printed before the
    exception; its result is [None]. *)

Definition MX (A : Type) : Type := M (option A).

Definition lift {A : Type} (m : M A) : MX A :=
  bind m (fun a => ret (Some a)).

Definition of_option {A : Type} (o : option A) : MX A := ret o.

Definition bindX {A B : Type} (m : MX A) (k : A -> MX B) : MX B :=
  bind m (fun r =>
    match r with
    | Some a => k a
    | None => ret None
    end).

Definition set_sensor_simulator (v : SensorSimulator)
    (s : RealTimeBACMonitor) :=
  mkMonitor (bac_calculator s) v (weight_lbs s) (gender s)
    (drinks s) (first_drink_time s) (last_drink_time s) (current_bac s)
    (bac_history s) (sensor_history s) (is_monitoring s) (monitor_thread s)
    (data_queue s) (alert_thresholds s) (last_alert_level s)
    (last_alert_time s) (alert_cooldown s).

Definition set_is_monitoring (v : bool) (s : RealTimeBACMonitor) :=
  mkMonitor (bac_calculator s) (sensor_simulator s) (weight_lbs s) (gender s)
    (drinks s) (first_drink_time s) (last_drink_time s) (current_bac s)
    (bac_history s) (sensor_history s) v (monitor_thread s)
    (data_queue s) (alert_thresholds s) (last_alert_level s)
    (last_alert_time s) (alert_cooldown s).

Definition set_monitor_thread (v : bool) (s : RealTimeBACMonitor) :=
  mkMonitor (bac_calculator s) (sensor_simulator s) (weight_lbs s) (gender s)
    (drinks s) (first_drink_time s) (last_drink_time s) (current_bac s)
    (bac_history s) (sensor_history s) (is_monitoring s) v
    (data_queue s) (alert_thresholds s) (last_alert_level s)
    (last_alert_time s) (alert_cooldown s).

Definition set_data_queue (v : list DataPoint) (s : RealTimeBACMonitor) :=
  mkMonitor (bac_calculator s) (sensor_simulator s) (weight_lbs s) (gender s)
    (drinks s) (first_drink_time s) (last_drink_time s) (current_bac s)
    (bac_history s) (sensor_history s) (is_monitoring s) (monitor_thread s)
    v (alert_thresholds s) (last_alert_level s)
    (last_alert_time s) (alert_cooldown s).

(** [start_monitoring]; the thread it starts is not run here, only recorded
    as created. *)
Definition start_monitoring : M unit :=
  self ← read id;
  if negb (is_monitoring self) then
    assign (set_is_monitoring true);;
    assign (set_monitor_thread true);;
    print (Line "BAC monitoring started...")
  else mret tt.

(** [stop_monitoring]; the join of the thread has no effect on the
    attributes. *)
Definition stop_monitoring : M unit :=
  assign (set_is_monitoring false);;
  print (Line "BAC monitoring stopped.").

(** [get_recent_data], for a whole number of minutes. *)
Definition get_recent_data (minutes : Z) : M (list DataPoint) :=
  self ← read id;
  now ← datetime_now;
  let cutoff_time := (now - Py.minutes minutes)%Z in
  mret (filter (fun point => (cutoff_time < dp_timestamp point)%Z)
          (bac_history self)).

Section WithExp.

(** [math.exp], which the sensor estimate calls. *)
Variable exp : Q -> Q.

(** [_update_bac]. *)
Definition _update_bac : MX unit :=
  bindX (lift (read id)) (fun self =>
  match drinks self with
  | [] => lift (assign (set_current_bac 0.0))
  | _ :: _ =>
    bindX (lift datetime_now) (fun now =>
    let hours_since_first :=
      match first_drink_time self with
      | Some first => Py.total_seconds now first / 3600
      | None => 0
      end in
    bindX (of_option
             (Calc.calculate_bac_widmark (bac_calculator self)
                (weight_lbs self) (gender self)
                (map drink_info (drinks self)) hours_since_first))
          (fun calculated_bac =>
    match last_drink_time self with
    | Some last =>
        bindX (of_option
                 (Calc.estimate_bac_from_sensors exp (bac_calculator self)
                    (current_heart_rate (sensor_simulator self))
                    (current_skin_conductance (sensor_simulator self))
                    (current_temperature (sensor_simulator self))
                    (baseline_heart_rate (sensor_simulator self))
                    (baseline_skin_conductance (sensor_simulator self))
                    (baseline_temperature (sensor_simulator self))
                    last (weight_lbs self) (gender self) now))
              (fun sensor_bac =>
        lift (assign
                (set_current_bac (0.7 * calculated_bac + 0.3 * sensor_bac))))
    | None => lift (assign (set_current_bac calculated_bac))
    end))
  end).

(** [add_drink] of the monitor. *)
Definition add_drink (drink_type : string)
    (volume_oz_arg alcohol_percent_arg : option Q) : MX unit :=
  bindX (lift (read id)) (fun self =>
  let info :=
    Calc.add_drink (bac_calculator self) drink_type
      volume_oz_arg alcohol_percent_arg in
  bindX (lift datetime_now) (fun now =>
  let drink := {| drink_info := info; timestamp := now |} in
  bindX (lift (assign (fun s => set_drinks (drinks s ++ [drink]) s)))
        (fun _ =>
  bindX (lift (assign (fun s =>
                 match first_drink_time s with
                 | Some _ => s
                 | None => set_first_drink_time (Some now) s
                 end))) (fun _ =>
  bindX (lift (assign (set_last_drink_time (Some now)))) (fun _ =>
  bindX _update_bac (fun _ =>
  lift (print (Line ("Added drink: " +:+ drink_type))))))))).

(** One iteration of the loop of [_monitor_loop], given the random draws of
    its [update_sensors]; the exception handler is the last step. *)
Definition monitor_iteration (noise : Noise) : M unit :=
  bind (bindX _update_bac (fun _ =>
      lift (
        self ← read id;
        assign (set_sensor_simulator
                  (Sensor.update_sensors noise (sensor_simulator self)
                     (current_bac self)));;
        self ← read id;
        timestamp ← datetime_now;
        let data_point :=
          {| dp_timestamp := timestamp;
             dp_bac := current_bac self;
             dp_heart_rate := current_heart_rate (sensor_simulator self);
             dp_skin_conductance :=
               current_skin_conductance (sensor_simulator self);
             dp_temperature := current_temperature (sensor_simulator self) |} in
        assign (fun s => set_bac_history (bac_history s ++ [data_point]) s);;
        assign (fun s =>
                  set_sensor_history (sensor_history s ++ [data_point]) s);;
        _check_alerts;;
        assign (fun s => set_data_queue (data_queue s ++ [data_point]) s))))
    (fun r =>
       match r with
       | Some _ => ret tt
       | None => print (Line "Error in monitoring loop")
       end).

(** The first iterations of [_monitor_loop], one for each element of the
    schedule: the clock and the random draws of that iteration.  The loop
    ends when [is_monitoring] is found false. *)
Fixpoint _monitor_loop (schedule : list (Z * Noise))
    (self : RealTimeBACMonitor) : RealTimeBACMonitor * list Output :=
  match schedule with
  | [] => (self, [])
  | (now, noise) :: rest =>
      if is_monitoring self then
        let '(_, self1, out1) := monitor_iteration noise now self in
        let '(self2, out2) := _monitor_loop rest self1 in
        (self2, out1 ++ out2)
      else (self, [])
  end.

End WithExp.

End Mon.

(** ** The estimator as the specification words it *)

Module Spec.

(** A profile: a positive weight and one of the two sexes. *)
Definition valid_profile (weightLbs : Q) (sex : string) : Prop :=
  0 < weightLbs /\ (sex = "male" \/ sex = "female").

(** The distribution ratio: 0.68 for male, 0.55 for female. *)
Definition ratio (sex : string) : Q :=
  if String.eqb sex "male" then 0.68 else 0.55.

(** Grams of ethanol of one drink. *)
Definition grams (volumeOz alcoholPercent : Q) : Q :=
  volumeOz * 29.5735 * (alcoholPercent / 100) * 0.789.

(** The sum over the drink list. *)
Fixpoint totalGrams (drinks : list DrinkInfo) : Q :=
  match drinks with
  | [] => 0
  | d :: rest => grams (volume_oz d) (alcohol_percent d) + totalGrams rest
  end.

(** peakBac = (totalGrams / (ratio * weightLbs * 453.592)) * 100. *)
Definition peakBac (weightLbs : Q) (sex : string) (drinks : list DrinkInfo)
    : Q :=
  (totalGrams drinks / (ratio sex * weightLbs * 453.592)) * 100.

(** Two numbers agree within a tolerance. *)
Definition approx (tol x y : Q) : Prop := Qabs (x - y) <= tol.

(** A type string that is none of the four names of the drink database. *)
Definition unknown_type (drink_type : string) : Prop :=
  drink_type <> "beer" /\ drink_type <> "wine" /\
  drink_type <> "liquor" /\ drink_type <> "cocktail".

(** An optional volumeOz override of the Drink type: volumeOz > 0. *)
Definition volume_override_ok (v : option Q) : Prop :=
  forall x, v = Some x -> 0 < x.

(** An optional alcoholPercent override of the Drink type: a percentage in
    (0, 100]. *)
Definition percent_override_ok (p : option Q) : Prop :=
  forall x, p = Some x -> 0 < x /\ x <= 100.

(** The alert tier of a BAC value from the thresholds 0.05 / 0.08 / 0.15. *)
Definition tier (bac : Q) : option AlertLevel :=
  if Qle_bool 0.15 bac then Some critical
  else if Qle_bool 0.08 bac then Some danger
  else if Qle_bool 0.05 bac then Some warning
  else None.

(** The firing rule in the words of the specification: the tier changed, or
    the tier is not none and no alert was fired yet or the cooldown is
    over. *)
Definition fires_as_stated (lastTier : option AlertLevel)
    (lastFiredAt : option Z) (cooldownSeconds bac : Q) (now : Z) : Prop :=
  tier bac <> lastTier \/
  (is_Some (tier bac) /\
   match lastFiredAt with
   | None => True
   | Some fired => cooldownSeconds < Py.total_seconds now fired
   end).

(** The same rule restricted to a tier that is not none. *)
Definition fires (lastTier : option AlertLevel)
    (lastFiredAt : option Z) (cooldownSeconds bac : Q) (now : Z) : Prop :=
  is_Some (tier bac) /\
  fires_as_stated lastTier lastFiredAt cooldownSeconds bac now.

End Spec.

(** ** Invariants of the monitor *)

Module Inv.

(** The timestamps of a history never go back. *)
Definition chronological (history : list DataPoint) : Prop :=
  StronglySorted (fun p q => (dp_timestamp p <= dp_timestamp q)%Z) history.

(** The level and the time of the last alert are set together. *)
Definition alert_state_paired (s : RealTimeBACMonitor) : Prop :=
  last_alert_level s = None <-> last_alert_time s = None.

(** The ranges [update_sensors] clamps the readings to. *)
Definition readings_clamped (sim : SensorSimulator) : Prop :=
  (50 <= current_heart_rate sim /\ current_heart_rate sim <= 120) /\
  1 <= current_skin_conductance sim /\
  (95 <= current_temperature sim /\ current_temperature sim <= 102).


(** A sample whose readings are within the clamping ranges and whose BAC is
    not negative. *)
Definition sample_ok (point : DataPoint) : Prop :=
  0 <= dp_bac point /\
  (50 <= dp_heart_rate point /\ dp_heart_rate point <= 120) /\
  1 <= dp_skin_conductance point /\
  (95 <= dp_temperature point /\ dp_temperature point <= 102).

(** The attributes no iteration of the monitoring loop assigns. *)
Definition same_session (s s' : RealTimeBACMonitor) : Prop :=
  drinks s' = drinks s /\
  first_drink_time s' = first_drink_time s /\
  last_drink_time s' = last_drink_time s /\
  weight_lbs s' = weight_lbs s /\ gender s' = gender s /\
  bac_calculator s' = bac_calculator s /\
  alert_thresholds s' = alert_thresholds s /\
  alert_cooldown s' = alert_cooldown s /\
  is_monitoring s' = is_monitoring s /\
  monitor_thread s' = monitor_thread s.

End Inv.

(** The code's peak value: the quotient of the total by the scaled weight,
    times 100. *)
Definition peak (w : Q) (sex : string) (drinks : list DrinkInfo) : Q :=
  Calc.total_alcohol_grams drinks
  / (Calc.widmark_factor Calc.init sex * (w * 453.592)) * 100.

(** ** Comparisons and clamping *)

Lemma Qle_bool_cases (x y : Q) :
  (Qle_bool x y = true /\ x <= y) \/ (Qle_bool x y = false /\ y < x).
Proof.
  destruct (Qle_bool x y) eqn:E.
  - left. split; [reflexivity | now apply Qle_bool_iff].
  - right. split; [reflexivity |].
    apply Qnot_le_lt. intros H. apply Qle_bool_iff in H. congruence.
Qed.

Lemma Qeq_bool_cases (x y : Q) :
  (Qeq_bool x y = true /\ x == y) \/ (Qeq_bool x y = false /\ ~ x == y).
Proof.
  destruct (Qeq_bool x y) eqn:E.
  - left. split; [reflexivity | now apply Qeq_bool_eq].
  - right. split; [reflexivity | now apply Qeq_bool_neq].
Qed.

Lemma ltb_true (a b : Q) : Py.ltb a b = true <-> a < b.
Proof.
  unfold Py.ltb. destruct (Qle_bool_cases b a) as [[-> H] | [-> H]]; simpl.
  - split; [discriminate | intros; lra].
  - tauto.
Qed.

Lemma ltb_false (a b : Q) : Py.ltb a b = false <-> b <= a.
Proof.
  unfold Py.ltb. destruct (Qle_bool_cases b a) as [[-> H] | [-> H]]; simpl.
  - tauto.
  - split; [discriminate | intros; lra].
Qed.

Lemma max0_nonneg (a : Q) : 0 <= Py.max0 a.
Proof.
  unfold Py.max0. destruct (Py.ltb 0 a) eqn:E.
  - apply ltb_true in E. lra.
  - lra.
Qed.

Lemma max0_Qmax (a : Q) : Py.max0 a == Qmax 0 a.
Proof.
  unfold Py.max0. destruct (Py.ltb 0 a) eqn:E.
  - apply ltb_true in E. symmetry. apply Q.max_r. lra.
  - apply ltb_false in E. symmetry. now apply Q.max_l.
Qed.

#[global] Instance max0_proper : Proper (Qeq ==> Qeq) Py.max0.
Proof.
  intros a b Hab. rewrite !max0_Qmax. now apply Q.max_compat.
Qed.

Lemma max0_pos (a : Q) : 0 < a -> Py.max0 a == a.
Proof. intros H. rewrite max0_Qmax. apply Q.max_r. lra. Qed.

Lemma max0_neg (a : Q) : a <= 0 -> Py.max0 a == 0.
Proof. intros H. rewrite max0_Qmax. now apply Q.max_l. Qed.

Lemma max0_pos_inv (a : Q) : 0 < Py.max0 a -> 0 < a.
Proof.
  intros H. destruct (Qle_bool_cases a 0) as [[_ Hn] | [_ Hn]]; [| exact Hn].
  rewrite max0_neg in H by exact Hn. lra.
Qed.

(** ** The Widmark estimator *)

Lemma fold_grams (drinks : list DrinkInfo) (acc : Q) :
  fold_left (fun a d => a + Calc.alcohol_grams d) drinks acc
  == acc + Spec.totalGrams drinks.
Proof.
  revert acc. induction drinks as [| d rest IH]; intros acc; simpl.
  - lra.
  - rewrite IH. unfold Calc.alcohol_grams, Spec.grams. lra.
Qed.

Lemma total_alcohol_grams_sum (drinks : list DrinkInfo) :
  Calc.total_alcohol_grams drinks == Spec.totalGrams drinks.
Proof. unfold Calc.total_alcohol_grams. rewrite fold_grams. lra. Qed.

Lemma widmark_factor_ratio (sex : string) :
  sex = "male" \/ sex = "female" ->
  Calc.widmark_factor Calc.init sex = Spec.ratio sex.
Proof. intros [-> | ->]; reflexivity. Qed.

Lemma widmark_factor_pos (sex : string) :
  0 < Calc.widmark_factor Calc.init sex.
Proof.
  unfold Calc.widmark_factor.
  destruct (String.eqb (Py.lower sex) "male"); reflexivity.
Qed.

(** With a non-zero weight the estimator returns, and returns the clamped
    two-phase value of the peak. *)
Lemma calculate_bac_widmark_returns (w : Q) (sex : string)
    (drinks : list DrinkInfo) (h : Q) :
  ~ w == 0 ->
  Calc.calculate_bac_widmark Calc.init w sex drinks h
  = Some (Py.max0 (Calc.apply_metabolism Calc.init (peak w sex drinks) h)).
Proof.
  intros Hw. unfold Calc.calculate_bac_widmark, Py.py_div, peak.
  pose proof (widmark_factor_pos sex) as Hf.
  destruct (Qeq_bool_cases
    (Calc.widmark_factor Calc.init sex * (w * 453.592)) 0) as [[E H] | [E H]];
    rewrite E.
  - exfalso. apply Hw.
    assert (Hz : Calc.widmark_factor Calc.init sex * w == 0) by lra.
    apply Qmult_integral in Hz. destruct Hz; [lra | assumption].
  - reflexivity.
Qed.

Lemma peak_spec (w : Q) (sex : string) (drinks : list DrinkInfo) :
  Spec.valid_profile w sex -> peak w sex drinks == Spec.peakBac w sex drinks.
Proof.
  intros [Hw Hs]. unfold peak, Spec.peakBac.
  rewrite total_alcohol_grams_sum, (widmark_factor_ratio sex Hs).
  assert (0 < Spec.ratio sex) by (destruct Hs as [-> | ->]; reflexivity).
  field. split; lra.
Qed.

Lemma peak_pos (w : Q) (sex : string) (drinks : list DrinkInfo) :
  0 < w -> 0 < Calc.total_alcohol_grams drinks -> 0 < peak w sex drinks.
Proof.
  intros Hw Ht. unfold peak.
  pose proof (widmark_factor_pos sex) as Hf.
  assert (Hd : 0 < Calc.widmark_factor Calc.init sex * (w * 453.592)).
  { apply Qmult_lt_0_compat; [assumption | lra]. }
  apply Qmult_lt_0_compat; [| reflexivity].
  apply Qlt_shift_div_l; [assumption | lra].
Qed.

Lemma apply_metabolism_ramp (p h : Q) :
  h <= 0.5 -> Calc.apply_metabolism Calc.init p h == p * (h / 0.5).
Proof.
  intros H. unfold Calc.apply_metabolism.
  destruct (Qle_bool_cases h 0.5) as [[-> _] | [-> H']]; [reflexivity | lra].
Qed.

Lemma apply_metabolism_decay (p h : Q) :
  0.5 < h -> Calc.apply_metabolism Calc.init p h == p - 0.015 * (h - 0.5).
Proof.
  intros H. unfold Calc.apply_metabolism.
  destruct (Qle_bool_cases h 0.5) as [[-> H'] | [-> _]]; [lra |].
  simpl. lra.
Qed.


(** ** Claims on the Widmark estimator *)

(** C1: for a profile with positive weight and sex male or female, any drink
    list and any elapsedHours >= 0, the estimator returns
    peakBac * (elapsedHours / 0.5) up to half an hour and
    peakBac - 0.015 * (elapsedHours - 0.5) after it, clamped below at 0,
    with peakBac, ratio and totalGrams as the specification defines them. *)
Theorem C1_widmark_two_phase (w : Q) (sex : string)
    (drinks : list DrinkInfo) (h : Q) :
  Spec.valid_profile w sex -> 0 <= h ->
  exists bac,
    Calc.calculate_bac_widmark Calc.init w sex drinks h = Some bac /\
    (h <= 0.5 -> bac == Qmax 0 (Spec.peakBac w sex drinks * (h / 0.5))) /\
    (0.5 < h ->
     bac == Qmax 0 (Spec.peakBac w sex drinks - 0.015 * (h - 0.5))).
Proof.
  intros Hp Hh. pose proof Hp as [Hw _].
  eexists. split.
  - apply calculate_bac_widmark_returns. lra.
  - split; intros Hc; rewrite max0_Qmax; apply Q.max_compat; try reflexivity.
    + rewrite apply_metabolism_ramp by exact Hc.
      now rewrite (peak_spec w sex drinks Hp).
    + rewrite apply_metabolism_decay by exact Hc.
      now rewrite (peak_spec w sex drinks Hp).
Qed.

Lemma C1_widmark_two_phase_witness :
  Spec.valid_profile 160 "male" /\ 0 <= 1.5 /\
  exists bac,
    Calc.calculate_bac_widmark Calc.init 160 "male"
      [mkDrinkInfo 5.0 12.0; mkDrinkInfo 40.0 1.5] 1.5 = Some bac /\
    (1.5 <= 0.5 ->
     bac == Qmax 0 (Spec.peakBac 160 "male"
                      [mkDrinkInfo 5.0 12.0; mkDrinkInfo 40.0 1.5]
                    * (1.5 / 0.5))) /\
    (0.5 < 1.5 ->
     bac == Qmax 0 (Spec.peakBac 160 "male"
                      [mkDrinkInfo 5.0 12.0; mkDrinkInfo 40.0 1.5]
                    - 0.015 * (1.5 - 0.5))).
Proof.
  assert (Hp : Spec.valid_profile 160 "male").
  { split; [reflexivity | left; reflexivity]. }
  assert (Hh : 0 <= 1.5) by (vm_compute; discriminate).
  split; [exact Hp | split; [exact Hh |]].
  exact (C1_widmark_two_phase 160 "male"
           [mkDrinkInfo 5.0 12.0; mkDrinkInfo 40.0 1.5] 1.5 Hp Hh).
Defined.

(** C2 as the specification states it fails: for the 133 lb female profile
    and one 12 oz / 5 % drink, the value at half an hour is not within 0.01
    of 0.026. *)
Lemma C2_not_0_026 :
  exists bac,
    Calc.calculate_bac_widmark Calc.init 133 "female"
      [mkDrinkInfo 5 12] 0.5 = Some bac /\
    ~ Spec.approx 0.01 bac 0.026.
Proof.
  eexists. split.
  - vm_compute. reflexivity.
  - vm_compute. intros H. apply H. reflexivity.
Qed.

(** C2, amended: for the 133 lb female profile and one 12 oz / 5 % drink,
    the estimator at elapsedHours = 0.5 returns peakBac, which is 0.042 to
    three decimals. *)
Theorem C2_scenario_0_042 :
  exists bac,
    Calc.calculate_bac_widmark Calc.init 133 "female"
      [mkDrinkInfo 5 12] 0.5 = Some bac /\
    bac == Spec.peakBac 133 "female" [mkDrinkInfo 5 12] /\
    Spec.approx 0.0005 bac 0.042.
Proof.
  eexists. split; [| split].
  - vm_compute. reflexivity.
  - vm_compute. reflexivity.
  - vm_compute. discriminate.
Qed.

(** C4: for every profile, drink list and elapsedHours of either sign, the
    estimator returns a value that is at least 0. *)
Theorem C4_widmark_nonneg (w : Q) (sex : string)
    (drinks : list DrinkInfo) (h : Q) :
  Spec.valid_profile w sex ->
  exists bac,
    Calc.calculate_bac_widmark Calc.init w sex drinks h = Some bac /\
    0 <= bac.
Proof.
  intros [Hw _]. eexists. split.
  - apply calculate_bac_widmark_returns. lra.
  - apply max0_nonneg.
Qed.

Lemma C4_widmark_nonneg_witness :
  Spec.valid_profile 133 "female" /\
  exists bac,
    Calc.calculate_bac_widmark Calc.init 133 "female"
      [mkDrinkInfo 5 12] (-2) = Some bac /\
    0 <= bac.
Proof.
  assert (Hp : Spec.valid_profile 133 "female").
  { split; [reflexivity | right; reflexivity]. }
  split; [exact Hp |].
  exact (C4_widmark_nonneg 133 "female" [mkDrinkInfo 5 12] (-2) Hp).
Defined.

(** C5 as stated fails: with an empty drink list the estimator is constantly
    0 on the ramp, so it is not strictly increasing on [0, 0.5]. *)
Lemma C5_empty_log_not_increasing :
  ~ (forall h1 h2 b1 b2 : Q,
       0 <= h1 -> h1 < h2 -> h2 <= 0.5 ->
       Calc.calculate_bac_widmark Calc.init 133 "female" [] h1 = Some b1 ->
       Calc.calculate_bac_widmark Calc.init 133 "female" [] h2 = Some b2 ->
       b1 < b2).
Proof.
  intros H.
  assert (Hlt : (0 : Q) < 0).
  { apply (H 0 0.5 0 0); vm_compute; first [reflexivity | discriminate]. }
  revert Hlt. discriminate.
Qed.

(** From half an hour on the curve is the linear decay, also at the
    boundary itself. *)
Lemma apply_metabolism_from_peak (p h : Q) :
  0.5 <= h ->
  Calc.apply_metabolism Calc.init p h == p - 0.015 * (h - 0.5).
Proof.
  intros Hh. destruct (Qle_bool_cases h 0.5) as [[_ Hle] | [_ Hgt]].
  - rewrite apply_metabolism_ramp by exact Hle.
    assert (E : h == 0.5) by lra. rewrite E. field.
  - now apply apply_metabolism_decay.
Qed.

(** C5, amended: for a fixed profile and a fixed drink list, the estimator
    never decreases as elapsedHours grows within [0, 0.5] and never
    increases as elapsedHours grows from 0.5 on, where it stays at 0 once
    clamped; neither direction is strict. *)
Theorem C5_widmark_monotone (w : Q) (sex : string)
    (drinks : list DrinkInfo) (h1 h2 : Q) :
  Spec.valid_profile w sex ->
  h1 <= h2 ->
  exists b1 b2,
    Calc.calculate_bac_widmark Calc.init w sex drinks h1 = Some b1 /\
    Calc.calculate_bac_widmark Calc.init w sex drinks h2 = Some b2 /\
    (0 <= h1 -> h2 <= 0.5 -> b1 <= b2) /\
    (0.5 <= h1 -> b2 <= b1) /\
    (0.5 <= h1 -> b1 == 0 -> b2 == 0).
Proof.
  intros [Hw _] Hle.
  assert (Hnz : ~ w == 0) by lra.
  set (p := peak w sex drinks).
  do 2 eexists. split; [| split; [| split; [| split]]].
  - apply calculate_bac_widmark_returns, Hnz.
  - apply calculate_bac_widmark_returns, Hnz.
  - fold p. intros H0 H5.
    rewrite !apply_metabolism_ramp by lra.
    assert (E : forall h, p * (h / 0.5) == p * (2 * h)) by (intros; field).
    rewrite !E.
    destruct (Qle_bool_cases 0 p) as [[_ Hp] | [_ Hp]].
    + rewrite !max0_Qmax. apply Q.max_le_compat_l.
      rewrite !(Qmult_comm p). apply Qmult_le_compat_r; lra.
    + assert (N : forall h, 0 <= h -> p * (2 * h) <= 0).
      { intros h Hh.
        assert (0 <= (- p) * (2 * h)) by (apply Qmult_le_0_compat; lra).
        lra. }
      rewrite (max0_neg _ (N h1 H0)), (max0_neg (p * (2 * h2))); [lra |].
      apply N. lra.
  - fold p. intros H5.
    rewrite !apply_metabolism_from_peak by lra.
    rewrite !max0_Qmax. apply Q.max_le_compat_l. lra.
  - fold p. intros H5.
    rewrite !apply_metabolism_from_peak by lra.
    intros Hz.
    destruct (Qle_bool_cases (p - 0.015 * (h1 - 0.5)) 0) as [[_ Hn] | [_ Hn]].
    + apply max0_neg. lra.
    + rewrite max0_pos in Hz by exact Hn. lra.
Qed.

Lemma C5_widmark_monotone_witness :
  Spec.valid_profile 133 "female" /\
  0.25 <= 0.5 /\
  exists b1 b2,
    Calc.calculate_bac_widmark Calc.init 133 "female"
      [mkDrinkInfo 5 12] 0.25 = Some b1 /\
    Calc.calculate_bac_widmark Calc.init 133 "female"
      [mkDrinkInfo 5 12] 0.5 = Some b2 /\
    (0 <= 0.25 -> 0.5 <= 0.5 -> b1 <= b2) /\
    (0.5 <= 0.25 -> b2 <= b1) /\
    (0.5 <= 0.25 -> b1 == 0 -> b2 == 0).
Proof.
  assert (Hp : Spec.valid_profile 133 "female").
  { split; [reflexivity | right; reflexivity]. }
  assert (Hle : 0.25 <= 0.5) by (vm_compute; discriminate).
  split; [exact Hp | split; [exact Hle |]].
  exact (C5_widmark_monotone 133 "female" [mkDrinkInfo 5 12] 0.25 0.5
           Hp Hle).
Defined.

(** ** Claims on the unit conversion, the classifier and [add_drink] *)

(** C7: the database entries for beer (12 oz, 5 %), liquor (1.5 oz, 40 %)
    and wine (5 oz, 12 %) each convert, by volumeOz * 29.5735 *
    (alcoholPercent / 100) * 0.789, to 14.0 grams of ethanol within 0.1. *)
Theorem C7_standard_drinks :
  Forall
    (fun '(name, oz, pct) =>
       exists d,
         drink_database Calc.init !! name = Some d /\
         volume_oz d == oz /\ alcohol_percent d == pct /\
         Calc.alcohol_grams d == Spec.grams oz pct /\
         Calc.total_alcohol_grams [d] == Calc.alcohol_grams d /\
         Spec.approx 0.1 (Calc.alcohol_grams d) 14.0)
    [("beer", 12, 5); ("liquor", 1.5, 40); ("wine", 5, 12)].
Proof.
  repeat constructor;
    (eexists; split; [vm_compute; reflexivity |]);
    repeat split; vm_compute; first [reflexivity | discriminate].
Qed.

(** C8: the classifier maps [0, 0.02) to Sober, [0.02, 0.05) to Mild
    Impairment, [0.05, 0.08) to Moderate Impairment, [0.08, 0.15) to High
    Impairment and [0.15, infinity) to Severe Impairment; 0.019999, 0.02,
    0.079999 and 0.08 are Sober, Mild, Moderate and High. *)
Theorem C8_effect_tiers :
  (forall bac : Q,
     let tier_name := level (Calc.get_bac_effects Calc.init bac) in
     (0 <= bac /\ bac < 0.02 -> tier_name = "Sober") /\
     (0.02 <= bac /\ bac < 0.05 -> tier_name = "Mild Impairment") /\
     (0.05 <= bac /\ bac < 0.08 -> tier_name = "Moderate Impairment") /\
     (0.08 <= bac /\ bac < 0.15 -> tier_name = "High Impairment") /\
     (0.15 <= bac -> tier_name = "Severe Impairment")) /\
  level (Calc.get_bac_effects Calc.init 0.019999) = "Sober" /\
  level (Calc.get_bac_effects Calc.init 0.02) = "Mild Impairment" /\
  level (Calc.get_bac_effects Calc.init 0.079999) = "Moderate Impairment" /\
  level (Calc.get_bac_effects Calc.init 0.08) = "High Impairment".
Proof.
  split; [| repeat split; reflexivity].
  intros bac tier_name. subst tier_name. unfold Calc.get_bac_effects.
  destruct (Py.ltb bac 0.02) eqn:E1;
    [apply ltb_true in E1 | apply ltb_false in E1];
  (destruct (Py.ltb bac 0.05) eqn:E2;
    [apply ltb_true in E2 | apply ltb_false in E2]);
  (destruct (Py.ltb bac 0.08) eqn:E3;
    [apply ltb_true in E3 | apply ltb_false in E3]);
  (destruct (Py.ltb bac 0.15) eqn:E4;
    [apply ltb_true in E4 | apply ltb_false in E4]);
  simpl; repeat split; intros; first [reflexivity | exfalso; lra].
Qed.

Lemma unknown_type_lookup (drink_type : string) :
  Spec.unknown_type drink_type ->
  drink_database Calc.init !! drink_type = None.
Proof.
  intros (Hb & Hw & Hl & Hc). unfold Calc.init; simpl.
  rewrite !lookup_insert_ne by congruence. apply lookup_empty.
Qed.

Lemma truthy_nonzero (a : Q) : ~ a == 0 -> Py.truthy a = true.
Proof.
  intros H. unfold Py.truthy.
  destruct (Qeq_bool_cases a 0) as [[_ E] | [-> _]]; [contradiction | reflexivity].
Qed.

(** How [add_drink] resolves each field: the override when it is given and
    not zero, the database or default value when none is given. *)
Lemma add_drink_resolution (drink_type : string) (v p : option Q) :
  let d := Calc.add_drink Calc.init drink_type v p in
  let base :=
    default (mkDrinkInfo 5.0 12.0) (drink_database Calc.init !! drink_type) in
  (Spec.unknown_type drink_type -> v = None -> p = None ->
   d = mkDrinkInfo 5.0 12.0) /\
  (forall x, v = Some x -> ~ x == 0 -> volume_oz d = x) /\
  (forall x, p = Some x -> ~ x == 0 -> alcohol_percent d = x) /\
  (v = None -> volume_oz d = volume_oz base) /\
  (p = None -> alcohol_percent d = alcohol_percent base).
Proof.
  intros d base. subst d base. unfold Calc.add_drink.
  split; [| split; [| split; [| split]]].
  - intros Hu -> ->. now rewrite (unknown_type_lookup _ Hu).
  - intros x -> Hx. pose proof (truthy_nonzero x Hx) as Ht.
    destruct (drink_database Calc.init !! drink_type) as [info |]; simpl;
      rewrite Ht; [| reflexivity].
    destruct p as [y |]; [destruct (Py.truthy y) |]; reflexivity.
  - intros x -> Hx. pose proof (truthy_nonzero x Hx) as Ht.
    destruct (drink_database Calc.init !! drink_type) as [info |]; simpl;
      rewrite Ht; reflexivity.
  - intros ->.
    destruct (drink_database Calc.init !! drink_type) as [info |]; simpl;
      [| reflexivity].
    destruct p as [y |]; [destruct (Py.truthy y) |]; reflexivity.
  - intros ->.
    destruct (drink_database Calc.init !! drink_type) as [info |]; simpl;
      [| reflexivity].
    destruct v as [y |]; [destruct (Py.truthy y) |]; reflexivity.
Qed.

(** C9: [add_drink] never fails on the drink type: a type string outside
    the database {beer, wine, liquor, cocktail} with no overrides gives the
    generic default (alcoholPercent 5.0, volumeOz 12.0); and an explicit
    volumeOz or alcoholPercent override of the Drink type (volumeOz > 0,
    alcoholPercent in (0, 100]), for a known or an unknown type, takes
    precedence over the database or default value, while a field without
    override keeps that value. *)
Theorem C9_add_drink_lenient (drink_type : string) (v p : option Q) :
  Spec.volume_override_ok v ->
  Spec.percent_override_ok p ->
  let d := Calc.add_drink Calc.init drink_type v p in
  let base :=
    default (mkDrinkInfo 5.0 12.0) (drink_database Calc.init !! drink_type) in
  (Spec.unknown_type drink_type -> v = None -> p = None ->
   d = mkDrinkInfo 5.0 12.0) /\
  (forall x, v = Some x -> volume_oz d = x) /\
  (forall x, p = Some x -> alcohol_percent d = x) /\
  (v = None -> volume_oz d = volume_oz base) /\
  (p = None -> alcohol_percent d = alcohol_percent base).
Proof.
  intros Hv Hp d base.
  destruct (add_drink_resolution drink_type v p)
    as (Hdef & Hvol & Hpct & Hvn & Hpn).
  split; [exact Hdef | split; [| split; [| split; assumption]]].
  - intros x Hx. apply Hvol; [exact Hx |].
    specialize (Hv x Hx). lra.
  - intros x Hx. apply Hpct; [exact Hx |].
    destruct (Hp x Hx) as [Hpos _]. lra.
Qed.

Lemma C9_add_drink_lenient_witness :
  Spec.volume_override_ok (Some 16) /\
  Spec.percent_override_ok (Some 7.5) /\
  let d := Calc.add_drink Calc.init "cider" (Some 16) (Some 7.5) in
  let base :=
    default (mkDrinkInfo 5.0 12.0) (drink_database Calc.init !! "cider") in
  (Spec.unknown_type "cider" -> Some 16 = None -> Some 7.5 = None ->
   d = mkDrinkInfo 5.0 12.0) /\
  (forall x, Some 16 = Some x -> volume_oz d = x) /\
  (forall x, Some 7.5 = Some x -> alcohol_percent d = x) /\
  (Some 16 = None -> volume_oz d = volume_oz base) /\
  (Some 7.5 = None -> alcohol_percent d = alcohol_percent base).
Proof.
  assert (Hv : Spec.volume_override_ok (Some 16)).
  { intros x Hx. injection Hx as <-. reflexivity. }
  assert (Hp : Spec.percent_override_ok (Some 7.5)).
  { intros x Hx. injection Hx as <-. split; [reflexivity | discriminate]. }
  split; [exact Hv | split; [exact Hp |]].
  exact (C9_add_drink_lenient "cider" (Some 16) (Some 7.5) Hv Hp).
Defined.

(** ** The alert throttle *)

Section AlertThrottle.

Variable now : Z.
Variable s : RealTimeBACMonitor.
Hypothesis thresholds_default : alert_thresholds s = Mon.default_thresholds.

Lemma current_alert_level_tier :
  Mon.current_alert_level s = Spec.tier (current_bac s).
Proof.
  unfold Mon.current_alert_level, Spec.tier, Py.geb.
  rewrite thresholds_default. reflexivity.
Qed.

(** The test of [_check_alerts] that guards the alert. *)
Lemma check_alerts_guard :
  Mon.should_alert s (Mon.current_alert_level s) now
  && bool_decide (is_Some (Mon.current_alert_level s)) = true
  <-> Spec.fires (last_alert_level s) (last_alert_time s)
        (alert_cooldown s) (current_bac s) now.
Proof.
  rewrite current_alert_level_tier.
  unfold Spec.fires, Spec.fires_as_stated, Mon.should_alert.
  rewrite andb_true_iff, bool_decide_eq_true.
  destruct (decide (Spec.tier (current_bac s) = last_alert_level s))
    as [Heq | Hne].
  - rewrite bool_decide_eq_false_2 by (intros Hc; now apply Hc).
    destruct (Spec.tier (current_bac s)) as [l |] eqn:Et.
    + rewrite bool_decide_eq_true_2 by eauto. simpl.
      destruct (last_alert_time s) as [fired |].
      * destruct (Py.ltb (alert_cooldown s) (Py.total_seconds now fired))
          eqn:El.
        -- apply ltb_true in El. split; [| intros; split; eauto].
           intros _. split; [eauto |]. right. split; [eauto | exact El].
        -- apply ltb_false in El. split; [intros [Hf _]; discriminate |].
           intros [_ [Hc | [_ Hc]]]; [congruence | lra].
      * split; [| intros; split; eauto].
        intros _. split; [eauto |]. right. split; [eauto | exact I].
    + rewrite bool_decide_eq_false_2 by (intros [x Hx]; discriminate).
      simpl. split; [intros [Hf _]; discriminate |].
      intros [[x Hx] _]. discriminate.
  - rewrite bool_decide_eq_true_2 by exact Hne.
    split; [intros [_ Hs]; split; [exact Hs | now left] | intros [Hs _]].
    split; [reflexivity | exact Hs].
Qed.

(** A run of [_check_alerts] whose guard holds. *)
Lemma check_alerts_fire (l : AlertLevel) :
  Spec.tier (current_bac s) = Some l ->
  Spec.fires (last_alert_level s) (last_alert_time s)
    (alert_cooldown s) (current_bac s) now ->
  Mon._check_alerts now s
  = (tt,
     Mon.set_last_alert_time (Some now)
       (Mon.set_last_alert_level (Some l) s),
     [Alert now (Mon.alert_name l) (current_bac s)
        (recommendation
           (Calc.get_bac_effects (bac_calculator s) (current_bac s)))]).
Proof.
  intros Ht Hf. apply check_alerts_guard in Hf.
  rewrite <- current_alert_level_tier in Ht.
  unfold Mon._check_alerts, mbind, Mon.M_bind, Mon.bind, Mon.read,
    Mon.datetime_now; simpl.
  rewrite Hf, Ht. reflexivity.
Qed.

(** A run of [_check_alerts] whose guard fails. *)
Lemma check_alerts_silent :
  ~ Spec.fires (last_alert_level s) (last_alert_time s)
      (alert_cooldown s) (current_bac s) now ->
  Mon._check_alerts now s = (tt, s, []).
Proof.
  intros Hf. rewrite <- check_alerts_guard in Hf.
  apply not_true_is_false in Hf.
  unfold Mon._check_alerts, mbind, Mon.M_bind, Mon.bind, Mon.read,
    Mon.datetime_now; simpl.
  rewrite Hf. reflexivity.
Qed.

End AlertThrottle.

(** The firing rule is decided by the guard of the code. *)
Lemma fires_decided (now : Z) (s : RealTimeBACMonitor) :
  alert_thresholds s = Mon.default_thresholds ->
  Spec.fires (last_alert_level s) (last_alert_time s)
    (alert_cooldown s) (current_bac s) now
  \/ ~ Spec.fires (last_alert_level s) (last_alert_time s)
         (alert_cooldown s) (current_bac s) now.
Proof.
  intros Hth. rewrite <- (check_alerts_guard now s Hth).
  destruct (Mon.should_alert s (Mon.current_alert_level s) now
            && bool_decide (is_Some (Mon.current_alert_level s)));
    [left; reflexivity | right; discriminate].
Qed.

Lemma total_seconds_ten (now : Z) :
  Py.total_seconds (now + 10000000) now == 10.
Proof.
  unfold Py.total_seconds.
  replace (now + 10000000 - now)%Z with 10000000%Z by lia.
  reflexivity.
Qed.

(** C3 as stated fails: a tick whose tier dropped from warning to none
    satisfies the stated firing rule, yet prints nothing and leaves lastTier
    and lastFiredAt as they were. *)
Lemma C3_drop_to_none_silent :
  let s := Mon.set_current_bac 0.03
             (Mon.set_last_alert_time (Some 0%Z)
                (Mon.set_last_alert_level (Some warning)
                   (Mon.init 150 "female"))) in
  Spec.fires_as_stated (last_alert_level s) (last_alert_time s)
    (alert_cooldown s) (current_bac s) 60000000 /\
  Mon.printed Mon._check_alerts 60000000 s = [] /\
  Mon.state_after Mon._check_alerts 60000000 s = s /\
  last_alert_level (Mon.state_after Mon._check_alerts 60000000 s)
  = Some warning.
Proof.
  intros s. split; [| split; [| split]].
  - left. vm_compute. discriminate.
  - reflexivity.
  - reflexivity.
  - reflexivity.
Qed.

(** C3, amended: with the thresholds 0.05 / 0.08 / 0.15, a tick fires an
    alert, and sets lastTier to the current tier and lastFiredAt to now,
    exactly when the current tier is not none and either it differs from
    lastTier, or lastFiredAt is unset, or now - lastFiredAt exceeds
    cooldownSeconds; otherwise it prints nothing and leaves the state
    unchanged.  With cooldownSeconds = 30, when a tick in the danger tier
    fires, a tick 10 seconds later that is again in the danger tier is
    suppressed; a tick in the danger tier after lastTier = warning fires
    whatever the time elapsed. *)
Theorem C3_alert_throttle (now : Z) (s : RealTimeBACMonitor) :
  alert_thresholds s = Mon.default_thresholds ->
  let go := Spec.fires (last_alert_level s) (last_alert_time s)
              (alert_cooldown s) (current_bac s) now in
  (go ->
   (exists line, Mon.printed Mon._check_alerts now s = [line]) /\
   Mon.state_after Mon._check_alerts now s
   = Mon.set_last_alert_time (Some now)
       (Mon.set_last_alert_level (Spec.tier (current_bac s)) s)) /\
  (~ go ->
   Mon.printed Mon._check_alerts now s = [] /\
   Mon.state_after Mon._check_alerts now s = s) /\
  (forall bac2 : Q,
     alert_cooldown s == 30 ->
     Spec.tier (current_bac s) = Some danger ->
     Spec.tier bac2 = Some danger ->
     Mon.printed Mon._check_alerts now s <> [] ->
     let s1 := Mon.set_current_bac bac2
                 (Mon.state_after Mon._check_alerts now s) in
     Mon.printed Mon._check_alerts (now + 10000000) s1 = [] /\
     Mon.state_after Mon._check_alerts (now + 10000000) s1 = s1) /\
  (last_alert_level s = Some warning ->
   Spec.tier (current_bac s) = Some danger ->
   Mon.printed Mon._check_alerts now s <> [] /\
   last_alert_level (Mon.state_after Mon._check_alerts now s) = Some danger /\
   last_alert_time (Mon.state_after Mon._check_alerts now s) = Some now).
Proof.
  intros Hth go. subst go.
  assert (Hfire : forall l, Spec.tier (current_bac s) = Some l ->
    Spec.fires (last_alert_level s) (last_alert_time s)
      (alert_cooldown s) (current_bac s) now ->
    Mon.printed Mon._check_alerts now s
    = [Alert now (Mon.alert_name l) (current_bac s)
         (recommendation
            (Calc.get_bac_effects (bac_calculator s) (current_bac s)))] /\
    Mon.state_after Mon._check_alerts now s
    = Mon.set_last_alert_time (Some now)
        (Mon.set_last_alert_level (Some l) s)).
  { intros l Hl Hf. unfold Mon.printed, Mon.state_after.
    rewrite (check_alerts_fire now s Hth l Hl Hf). split; reflexivity. }
  assert (Hsilent :
    ~ Spec.fires (last_alert_level s) (last_alert_time s)
        (alert_cooldown s) (current_bac s) now ->
    Mon.printed Mon._check_alerts now s = [] /\
    Mon.state_after Mon._check_alerts now s = s).
  { intros Hf. unfold Mon.printed, Mon.state_after.
    rewrite (check_alerts_silent now s Hth Hf). split; reflexivity. }
  split; [| split; [exact Hsilent | split]].
  - intros Hf. pose proof Hf as [[l Hl] _].
    destruct (Hfire l Hl Hf) as [Hp Hs]. rewrite Hp, Hs, Hl. eauto.
  - intros bac2 Hcool Hd Hd2 Hprinted s1.
    assert (Hf : Spec.fires (last_alert_level s) (last_alert_time s)
                   (alert_cooldown s) (current_bac s) now).
    { destruct (fires_decided now s Hth) as [Hf | Hf]; [exact Hf |].
      destruct (Hsilent Hf) as [Hp _]. contradiction. }
    destruct (Hfire danger Hd Hf) as [_ Hs]. subst s1. rewrite Hs.
    set (s1 := Mon.set_current_bac bac2 _).
    assert (Hth1 : alert_thresholds s1 = Mon.default_thresholds) by exact Hth.
    assert (Hn : ~ Spec.fires (last_alert_level s1) (last_alert_time s1)
                     (alert_cooldown s1) (current_bac s1)
                     (now + 10000000)).
    { subst s1; simpl. intros [_ [Hc | [_ Hc]]].
      - now apply Hc.
      - rewrite total_seconds_ten in Hc. lra. }
    unfold Mon.printed, Mon.state_after.
    rewrite (check_alerts_silent _ s1 Hth1 Hn). split; reflexivity.
  - intros Hw Hd.
    assert (Hf : Spec.fires (last_alert_level s) (last_alert_time s)
                   (alert_cooldown s) (current_bac s) now).
    { split; [rewrite Hd; eauto |]. left. rewrite Hd, Hw. discriminate. }
    destruct (Hfire danger Hd Hf) as [Hp Hs]. rewrite Hp, Hs.
    split; [discriminate | split; reflexivity].
Qed.

Lemma C3_alert_throttle_witness :
  let now := 5000000%Z in
  let s := Mon.set_current_bac 0.09 (Mon.init 150 "female") in
  alert_thresholds s = Mon.default_thresholds /\
  let go := Spec.fires (last_alert_level s) (last_alert_time s)
              (alert_cooldown s) (current_bac s) now in
  (go ->
   (exists line, Mon.printed Mon._check_alerts now s = [line]) /\
   Mon.state_after Mon._check_alerts now s
   = Mon.set_last_alert_time (Some now)
       (Mon.set_last_alert_level (Spec.tier (current_bac s)) s)) /\
  (~ go ->
   Mon.printed Mon._check_alerts now s = [] /\
   Mon.state_after Mon._check_alerts now s = s) /\
  (forall bac2 : Q,
     alert_cooldown s == 30 ->
     Spec.tier (current_bac s) = Some danger ->
     Spec.tier bac2 = Some danger ->
     Mon.printed Mon._check_alerts now s <> [] ->
     let s1 := Mon.set_current_bac bac2
                 (Mon.state_after Mon._check_alerts now s) in
     Mon.printed Mon._check_alerts (now + 10000000) s1 = [] /\
     Mon.state_after Mon._check_alerts (now + 10000000) s1 = s1) /\
  (last_alert_level s = Some warning ->
   Spec.tier (current_bac s) = Some danger ->
   Mon.printed Mon._check_alerts now s <> [] /\
   last_alert_level (Mon.state_after Mon._check_alerts now s) = Some danger /\
   last_alert_time (Mon.state_after Mon._check_alerts now s) = Some now).
Proof.
  intros now s.
  assert (H : alert_thresholds s = Mon.default_thresholds) by reflexivity.
  split; [exact H | exact (C3_alert_throttle now s H)].
Defined.

(** ** Session operations *)

(** C6 as stated fails: after [set_alert_cooldown 60], a reset leaves
    cooldownSeconds at 60 and does not restore its initial value 30. *)
Lemma C6_reset_keeps_cooldown :
  let s := Mon.state_after (Mon.set_alert_cooldown 60) 0
             (Mon.init 150 "female") in
  let s' := Mon.state_after Mon.reset_session 1000000 s in
  alert_cooldown s' = 60 /\
  alert_cooldown (Mon.init 150 "female") = 30 /\
  ~ alert_cooldown s' == alert_cooldown (Mon.init 150 "female").
Proof.
  intros s s'. split; [reflexivity | split; [reflexivity |]].
  vm_compute. discriminate.
Qed.

(** C6, amended: for every session state, resetSession empties the drink
    log and the history, sets the current BAC to 0.0 and unsets lastTier and
    lastFiredAt (and the first- and last-drink times), while leaving
    cooldownSeconds, the profile (weight and sex), the running flag and every
    other field unchanged; a getStatus right after the reset reports drink
    count 0, BAC 0.0 and tier Sober. *)
Theorem C6_reset_session (now now' : Z) (s : RealTimeBACMonitor) :
  let s' := Mon.state_after Mon.reset_session now s in
  let status := Mon.result Mon.get_current_status now' s' in
  s' = mkMonitor (bac_calculator s) (sensor_simulator s)
         (weight_lbs s) (gender s) [] None None 0.0 [] []
         (is_monitoring s) (monitor_thread s) (data_queue s)
         (alert_thresholds s) None None (alert_cooldown s) /\
  (drinks s' = [] /\ bac_history s' = [] /\ sensor_history s' = [] /\
   current_bac s' = 0.0 /\
   last_alert_level s' = None /\ last_alert_time s' = None) /\
  (alert_cooldown s' = alert_cooldown s /\
   weight_lbs s' = weight_lbs s /\ gender s' = gender s /\
   is_monitoring s' = is_monitoring s) /\
  (st_drinks_count status = 0%nat /\ st_bac status = 0.0 /\
   level (st_effects status) = "Sober") /\
  Mon.state_after Mon.get_current_status now' s' = s'.
Proof.
  intros s' status. subst s' status.
  repeat split; reflexivity.
Qed.

(** C10: checkAlertsManually leaves every field of the session state
    unchanged (it prints one line); in particular lastTier and lastFiredAt
    are as before, and the alert evaluation of the next tick runs exactly as
    it would have without the manual check. *)
Theorem C10_manual_check_is_pure (now : Z) (s : RealTimeBACMonitor) :
  Mon.state_after Mon.check_alerts_manually now s = s /\
  (exists line, Mon.printed Mon.check_alerts_manually now s = [line]) /\
  last_alert_level (Mon.state_after Mon.check_alerts_manually now s)
  = last_alert_level s /\
  last_alert_time (Mon.state_after Mon.check_alerts_manually now s)
  = last_alert_time s /\
  forall next : Z,
    Mon._check_alerts next (Mon.state_after Mon.check_alerts_manually now s)
    = Mon._check_alerts next s.
Proof.
  assert (Hs : Mon.state_after Mon.check_alerts_manually now s = s).
  { unfold Mon.state_after, Mon.check_alerts_manually, mbind, Mon.M_bind,
      Mon.bind, Mon.read, Mon.print; simpl.
    destruct (Py.geb (current_bac s) (alert_thresholds s critical));
      [reflexivity |].
    destruct (Py.geb (current_bac s) (alert_thresholds s danger));
      [reflexivity |].
    destruct (Py.geb (current_bac s) (alert_thresholds s warning));
      reflexivity. }
  split; [exact Hs | split; [| rewrite Hs; repeat split; reflexivity]].
  unfold Mon.printed, Mon.check_alerts_manually, mbind, Mon.M_bind,
    Mon.bind, Mon.read, Mon.print; simpl.
  destruct (Py.geb (current_bac s) (alert_thresholds s critical));
    [eexists; reflexivity |].
  destruct (Py.geb (current_bac s) (alert_thresholds s danger));
    [eexists; reflexivity |].
  destruct (Py.geb (current_bac s) (alert_thresholds s warning));
    eexists; reflexivity.
Qed.

(** * Further properties of the calculator *)

Lemma max0_zero (a : Q) : a <= 0 -> Py.max0 a = 0.
Proof.
  intros H. unfold Py.max0.
  destruct (Py.ltb 0 a) eqn:E; [| reflexivity].
  apply ltb_true in E. lra.
Qed.

Lemma max0_mono (a b : Q) : a <= b -> Py.max0 a <= Py.max0 b.
Proof.
  intros H. rewrite !max0_Qmax. now apply Q.max_le_compat_l.
Qed.

Lemma apply_metabolism_proper (p p' h : Q) :
  p == p' ->
  Calc.apply_metabolism Calc.init p h == Calc.apply_metabolism Calc.init p' h.
Proof.
  intros Hp. unfold Calc.apply_metabolism.
  destruct (Qle_bool h 0.5); now rewrite Hp.
Qed.

Lemma apply_metabolism_mono (p p' h : Q) :
  0 <= h -> p <= p' ->
  Calc.apply_metabolism Calc.init p h <= Calc.apply_metabolism Calc.init p' h.
Proof.
  intros Hh Hp. unfold Calc.apply_metabolism.
  destruct (Qle_bool h 0.5); simpl; [| lra].
  assert (E : forall q, q * (h / 0.5) == q * (2 * h)) by (intros; field).
  rewrite !E. apply Qmult_le_compat_r; [exact Hp | lra].
Qed.

Lemma widmark_zero_weight_none (self : BACCalculator) (w : Q)
    (sex : string) (drinks : list DrinkInfo) (h : Q) :
  w == 0 -> Calc.calculate_bac_widmark self w sex drinks h = None.
Proof.
  intros Hz. unfold Calc.calculate_bac_widmark, Py.py_div.
  assert (E : Calc.widmark_factor self sex * (w * 453.592) == 0).
  { rewrite Hz. ring. }
  apply Qeq_eq_bool in E. rewrite E. reflexivity.
Qed.

Lemma widmark_returns_nonneg (self : BACCalculator) (w : Q) (sex : string)
    (drinks : list DrinkInfo) (h b : Q) :
  Calc.calculate_bac_widmark self w sex drinks h = Some b -> 0 <= b.
Proof.
  unfold Calc.calculate_bac_widmark.
  destruct (Py.py_div _ _); [| discriminate].
  intros Hb. injection Hb as <-. apply max0_nonneg.
Qed.

(** X1: with a zero weight the estimator raises, whatever the calculator's
    factors, the gender string, the elapsed time and the drink list, the
    empty list included; and every value it returns, for a weight of either
    sign and any gender string, is at least 0. *)
Theorem widmark_zero_weight_raises (self : BACCalculator) (w : Q)
    (sex : string) (drinks : list DrinkInfo) (h : Q) :
  (w == 0 -> Calc.calculate_bac_widmark self w sex drinks h = None) /\
  (forall b,
     Calc.calculate_bac_widmark self w sex drinks h = Some b ->
     ~ w == 0 /\ 0 <= b).
Proof.
  split; [apply widmark_zero_weight_none |].
  intros b Hb. split.
  - intros Hz.
    rewrite (widmark_zero_weight_none self w sex drinks h Hz) in Hb.
    discriminate.
  - exact (widmark_returns_nonneg self w sex drinks h b Hb).
Qed.

(** X2: with an empty drink list the estimator returns 0, whatever the elapsed
    time, for every non-zero weight and every gender string. *)
Theorem widmark_empty_log (w : Q) (sex : string) (h : Q) :
  ~ w == 0 ->
  Calc.calculate_bac_widmark Calc.init w sex [] h = Some 0 /\
  level (Calc.get_bac_effects Calc.init 0) = "Sober".
Proof.
  intros Hw. split; [| reflexivity].
  rewrite (calculate_bac_widmark_returns w sex [] h Hw). f_equal.
  apply max0_zero.
  assert (Hp : peak w sex [] == 0).
  { unfold peak. change (Calc.total_alcohol_grams []) with 0.
    unfold Qdiv. ring. }
  rewrite (apply_metabolism_proper _ 0 h Hp).
  unfold Calc.apply_metabolism.
  destruct (Qle_bool_cases h 0.5) as [[-> _] | [-> Hh]]; simpl; [| lra].
  unfold Qdiv. ring_simplify. lra.
Qed.

Lemma widmark_empty_log_witness :
  ~ 150 == 0 /\
  Calc.calculate_bac_widmark Calc.init 150 "male" [] 3 = Some 0 /\
  level (Calc.get_bac_effects Calc.init 0) = "Sober".
Proof.
  assert (Hw : ~ 150 == 0) by (vm_compute; discriminate).
  split; [exact Hw | exact (widmark_empty_log 150 "male" 3 Hw)].
Defined.

Lemma lower_ascii_idem (c : ascii) :
  Py.lower_ascii (Py.lower_ascii c) = Py.lower_ascii c.
Proof.
  destruct c as [[] [] [] [] [] [] [] []]; reflexivity.
Qed.

Lemma lower_idem (g : string) : Py.lower (Py.lower g) = Py.lower g.
Proof.
  induction g as [| c r IH]; simpl; [reflexivity |].
  now rewrite lower_ascii_idem, IH.
Qed.

(** X3: the gender is compared ignoring case, and every string other than a
    spelling of male is treated as female. *)
Theorem widmark_gender_handling (w : Q) (g : string)
    (drinks : list DrinkInfo) (h : Q) :
  Calc.calculate_bac_widmark Calc.init w g drinks h
  = Calc.calculate_bac_widmark Calc.init w (Py.lower g) drinks h /\
  (Py.lower g = "male" ->
   Calc.calculate_bac_widmark Calc.init w g drinks h
   = Calc.calculate_bac_widmark Calc.init w "male" drinks h) /\
  (Py.lower g <> "male" ->
   Calc.calculate_bac_widmark Calc.init w g drinks h
   = Calc.calculate_bac_widmark Calc.init w "female" drinks h).
Proof.
  unfold Calc.calculate_bac_widmark, Calc.widmark_factor.
  rewrite lower_idem.
  split; [reflexivity | split].
  - intros ->. reflexivity.
  - intros Hne. apply String.eqb_neq in Hne. rewrite Hne. reflexivity.
Qed.

Lemma widmark_gender_handling_witness :
  Py.lower "MaLe" = "male" /\ Py.lower "Other" <> "male" /\
  Calc.calculate_bac_widmark Calc.init 160 "MaLe" [mkDrinkInfo 5 12] 1
  = Calc.calculate_bac_widmark Calc.init 160 "male" [mkDrinkInfo 5 12] 1 /\
  Calc.calculate_bac_widmark Calc.init 160 "Other" [mkDrinkInfo 5 12] 1
  = Calc.calculate_bac_widmark Calc.init 160 "female" [mkDrinkInfo 5 12] 1.
Proof.
  assert (H1 : Py.lower "MaLe" = "male") by reflexivity.
  assert (H2 : Py.lower "Other" <> "male") by (vm_compute; discriminate).
  split; [exact H1 | split; [exact H2 | split]].
  - exact (proj1 (proj2 (widmark_gender_handling 160 "MaLe"
                           [mkDrinkInfo 5 12] 1)) H1).
  - exact (proj2 (proj2 (widmark_gender_handling 160 "Other"
                           [mkDrinkInfo 5 12] 1)) H2).
Defined.

Lemma totalGrams_app (l1 l2 : list DrinkInfo) :
  Spec.totalGrams (l1 ++ l2) == Spec.totalGrams l1 + Spec.totalGrams l2.
Proof.
  induction l1 as [| d r IH]; simpl; [lra | rewrite IH; lra].
Qed.

Lemma peak_mono_total (w : Q) (sex : string) (d1 d2 : list DrinkInfo) :
  0 < w ->
  Calc.total_alcohol_grams d1 <= Calc.total_alcohol_grams d2 ->
  peak w sex d1 <= peak w sex d2.
Proof.
  intros Hw Ht. unfold peak.
  pose proof (widmark_factor_pos sex) as Hf.
  assert (Hd : 0 < Calc.widmark_factor Calc.init sex * (w * 453.592)).
  { apply Qmult_lt_0_compat; [assumption | lra]. }
  apply Qmult_le_compat_r; [| discriminate].
  unfold Qdiv. apply Qmult_le_compat_r; [exact Ht |].
  apply Qinv_le_0_compat. lra.
Qed.

(** X6: logging one more drink, of non-negative volume and strength, never
    lowers the value the estimator returns for the same elapsed time. *)
Theorem widmark_more_drinks_not_lower (w : Q) (sex : string)
    (drinks : list DrinkInfo) (d : DrinkInfo) (h : Q) :
  0 < w -> 0 <= h -> 0 <= volume_oz d -> 0 <= alcohol_percent d ->
  exists b b',
    Calc.calculate_bac_widmark Calc.init w sex drinks h = Some b /\
    Calc.calculate_bac_widmark Calc.init w sex (drinks ++ [d]) h = Some b' /\
    b <= b'.
Proof.
  intros Hw Hh Hv Hp.
  assert (Hnz : ~ w == 0) by lra.
  do 2 eexists.
  split; [apply calculate_bac_widmark_returns, Hnz |].
  split; [apply calculate_bac_widmark_returns, Hnz |].
  apply max0_mono, apply_metabolism_mono; [exact Hh |].
  apply peak_mono_total; [exact Hw |].
  rewrite !total_alcohol_grams_sum, totalGrams_app. simpl.
  assert (0 <= Spec.grams (volume_oz d) (alcohol_percent d)).
  { unfold Spec.grams.
    assert (E : volume_oz d * 29.5735 * (alcohol_percent d / 100) * 0.789
                == volume_oz d * alcohol_percent d * (29.5735 * 0.789 / 100))
      by field.
    rewrite E. apply Qmult_le_0_compat; [| discriminate].
    now apply Qmult_le_0_compat. }
  lra.
Qed.

Lemma widmark_more_drinks_not_lower_witness :
  0 < 160 /\ 0 <= 2 /\ 0 <= volume_oz (mkDrinkInfo 12 5) /\
  0 <= alcohol_percent (mkDrinkInfo 12 5) /\
  exists b b',
    Calc.calculate_bac_widmark Calc.init 160 "male"
      [mkDrinkInfo 5 12] 2 = Some b /\
    Calc.calculate_bac_widmark Calc.init 160 "male"
      ([mkDrinkInfo 5 12] ++ [mkDrinkInfo 12 5]) 2 = Some b' /\
    b <= b'.
Proof.
  assert (H1 : 0 < 160) by reflexivity.
  assert (H2 : 0 <= 2) by discriminate.
  assert (H3 : 0 <= volume_oz (mkDrinkInfo 12 5)) by discriminate.
  assert (H4 : 0 <= alcohol_percent (mkDrinkInfo 12 5)) by discriminate.
  split; [exact H1 | split; [exact H2 | split; [exact H3 | split; [exact H4 |]]]].
  exact (widmark_more_drinks_not_lower 160 "male" [mkDrinkInfo 5 12]
           (mkDrinkInfo 12 5) 2 H1 H2 H3 H4).
Defined.

(** X7: for a non-negative elapsed time the estimator never exceeds the value it
    returns at half an hour. *)
Theorem widmark_peak_at_half_hour (w : Q) (sex : string)
    (drinks : list DrinkInfo) (h : Q) :
  ~ w == 0 -> 0 <= h ->
  exists b bmax,
    Calc.calculate_bac_widmark Calc.init w sex drinks h = Some b /\
    Calc.calculate_bac_widmark Calc.init w sex drinks 0.5 = Some bmax /\
    b <= bmax.
Proof.
  intros Hw Hh. do 2 eexists.
  split; [apply calculate_bac_widmark_returns, Hw |].
  split; [apply calculate_bac_widmark_returns, Hw |].
  set (p := peak w sex drinks).
  assert (Hmax : Calc.apply_metabolism Calc.init p 0.5 == p).
  { rewrite apply_metabolism_ramp by discriminate. field. }
  rewrite Hmax.
  destruct (Qle_bool_cases 0 p) as [[_ Hp] | [_ Hp]].
  - apply max0_mono.
    destruct (Qle_bool_cases h 0.5) as [[_ Hle] | [_ Hgt]].
    + rewrite apply_metabolism_ramp by exact Hle.
      assert (E : p * (h / 0.5) == p - p * (1 - 2 * h)) by field.
      rewrite E.
      assert (0 <= p * (1 - 2 * h)) by (apply Qmult_le_0_compat; lra).
      lra.
    + rewrite apply_metabolism_decay by exact Hgt. lra.
  - assert (Hneg : Calc.apply_metabolism Calc.init p h <= 0).
    { destruct (Qle_bool_cases h 0.5) as [[_ Hle] | [_ Hgt]].
      - rewrite apply_metabolism_ramp by exact Hle.
        assert (E : p * (h / 0.5) == - ((- p) * (2 * h))) by field.
        rewrite E.
        assert (0 <= (- p) * (2 * h)) by (apply Qmult_le_0_compat; lra).
        lra.
      - rewrite apply_metabolism_decay by exact Hgt. lra. }
    rewrite (max0_zero _ Hneg). apply max0_nonneg.
Qed.

Lemma widmark_peak_at_half_hour_witness :
  ~ 133 == 0 /\ 0 <= 0.25 /\
  exists b bmax,
    Calc.calculate_bac_widmark Calc.init 133 "female"
      [mkDrinkInfo 5 12] 0.25 = Some b /\
    Calc.calculate_bac_widmark Calc.init 133 "female"
      [mkDrinkInfo 5 12] 0.5 = Some bmax /\
    b <= bmax.
Proof.
  assert (Hw : ~ 133 == 0) by (vm_compute; discriminate).
  assert (Hh : 0 <= 0.25) by discriminate.
  split; [exact Hw | split; [exact Hh |]].
  exact (widmark_peak_at_half_hour 133 "female" [mkDrinkInfo 5 12] 0.25 Hw Hh).
Defined.

Lemma Qinv_le_contravar (d1 d2 : Q) : 0 < d1 -> d1 <= d2 -> / d2 <= / d1.
Proof.
  intros H1 H2. apply Qle_shift_inv_r; [lra |].
  assert (E : / d1 * d2 == d2 / d1) by (field; lra).
  rewrite E. apply Qle_shift_div_l; [exact H1 | lra].
Qed.

(** X8: for the same drinks and elapsed time, a heavier person never gets a
    higher value, and a male never a higher value than a female of the same
    weight. *)
Theorem widmark_weight_and_sex (w1 w2 : Q) (sex : string)
    (drinks : list DrinkInfo) (h : Q) :
  0 < w1 -> w1 <= w2 -> 0 <= h ->
  0 <= Calc.total_alcohol_grams drinks ->
  (exists b1 b2,
     Calc.calculate_bac_widmark Calc.init w1 sex drinks h = Some b1 /\
     Calc.calculate_bac_widmark Calc.init w2 sex drinks h = Some b2 /\
     b2 <= b1) /\
  (exists bm bf,
     Calc.calculate_bac_widmark Calc.init w1 "male" drinks h = Some bm /\
     Calc.calculate_bac_widmark Calc.init w1 "female" drinks h = Some bf /\
     bm <= bf).
Proof.
  intros Hw1 Hw Hh Ht.
  assert (Hnz1 : ~ w1 == 0) by lra.
  assert (Hnz2 : ~ w2 == 0) by lra.
  assert (Hdiv : forall d1 d2, 0 < d1 -> d1 <= d2 ->
    Calc.total_alcohol_grams drinks / d2 * 100
    <= Calc.total_alcohol_grams drinks / d1 * 100).
  { intros d1 d2 Hd1 Hd. apply Qmult_le_compat_r; [| discriminate].
    unfold Qdiv. rewrite !(Qmult_comm (Calc.total_alcohol_grams drinks)).
    apply Qmult_le_compat_r; [| exact Ht].
    now apply Qinv_le_contravar. }
  split; do 2 eexists;
    (split; [apply calculate_bac_widmark_returns; assumption |]);
    (split; [apply calculate_bac_widmark_returns; assumption |]);
    apply max0_mono, apply_metabolism_mono; try exact Hh;
    unfold peak; apply Hdiv.
  - pose proof (widmark_factor_pos sex).
    apply Qmult_lt_0_compat; [assumption | lra].
  - pose proof (widmark_factor_pos sex) as Hf.
    apply Qmult_le_l; [exact Hf | lra].
  - change (Calc.widmark_factor Calc.init "female") with 0.55. lra.
  - change (Calc.widmark_factor Calc.init "female") with 0.55.
    change (Calc.widmark_factor Calc.init "male") with 0.68. lra.
Qed.

Lemma widmark_weight_and_sex_witness :
  0 < 133 /\ 133 <= 160 /\ 0 <= 1 /\
  0 <= Calc.total_alcohol_grams [mkDrinkInfo 5 12] /\
  (exists b1 b2,
     Calc.calculate_bac_widmark Calc.init 133 "female"
       [mkDrinkInfo 5 12] 1 = Some b1 /\
     Calc.calculate_bac_widmark Calc.init 160 "female"
       [mkDrinkInfo 5 12] 1 = Some b2 /\
     b2 <= b1) /\
  (exists bm bf,
     Calc.calculate_bac_widmark Calc.init 133 "male"
       [mkDrinkInfo 5 12] 1 = Some bm /\
     Calc.calculate_bac_widmark Calc.init 133 "female"
       [mkDrinkInfo 5 12] 1 = Some bf /\
     bm <= bf).
Proof.
  assert (H1 : 0 < 133) by reflexivity.
  assert (H2 : 133 <= 160) by discriminate.
  assert (H3 : 0 <= 1) by discriminate.
  assert (H4 : 0 <= Calc.total_alcohol_grams [mkDrinkInfo 5 12])
    by (vm_compute; discriminate).
  split; [exact H1 | split; [exact H2 | split; [exact H3 | split; [exact H4 |]]]].
  exact (widmark_weight_and_sex 133 160 "female" [mkDrinkInfo 5 12] 1
           H1 H2 H3 H4).
Defined.

(** * The sensor simulator and the sensor estimate *)

Lemma py_max_bounds (a b : Q) :
  a <= Py.py_max a b /\ b <= Py.py_max a b /\
  (Py.py_max a b == a \/ Py.py_max a b == b).
Proof.
  unfold Py.py_max. destruct (Py.ltb a b) eqn:E.
  - apply ltb_true in E. repeat split; [lra | lra | right; reflexivity].
  - apply ltb_false in E. repeat split; [lra | lra | left; reflexivity].
Qed.

Lemma py_min_bounds (a b : Q) :
  Py.py_min a b <= a /\ Py.py_min a b <= b /\
  (Py.py_min a b == a \/ Py.py_min a b == b).
Proof.
  unfold Py.py_min. destruct (Py.ltb b a) eqn:E.
  - apply ltb_true in E. repeat split; [lra | lra | right; reflexivity].
  - apply ltb_false in E. repeat split; [lra | lra | left; reflexivity].
Qed.



Lemma clamp_bounds (lo hi x : Q) :
  lo <= hi ->
  lo <= Py.py_max lo (Py.py_min hi x) /\ Py.py_max lo (Py.py_min hi x) <= hi.
Proof.
  intros H.
  destruct (py_max_bounds lo (Py.py_min hi x)) as (H1 & _ & [E | E]);
    destruct (py_min_bounds hi x) as (H2 & _ & _); split; lra.
Qed.

Lemma update_sensors_bounds (noise : Noise) (sim : SensorSimulator)
    (bac_level : Q) :
  let sim' := Sensor.update_sensors noise sim bac_level in
  Inv.readings_clamped sim' /\
  baseline_heart_rate sim' = baseline_heart_rate sim /\
  baseline_skin_conductance sim' = baseline_skin_conductance sim /\
  baseline_temperature sim' = baseline_temperature sim.
Proof.
  intros sim'. subst sim'. unfold Inv.readings_clamped; simpl.
  split; [| repeat split; reflexivity].
  match goal with
  | |- (_ <= Py.py_max ?l1 (Py.py_min ?h1 ?x) /\ _) /\
       _ <= Py.py_max ?l2 ?y /\
       (_ <= Py.py_max ?l3 (Py.py_min ?h3 ?z) /\ _) =>
      assert (H1 : l1 <= h1) by discriminate;
      assert (H3 : l3 <= h3) by discriminate;
      pose proof (clamp_bounds l1 h1 x H1);
      pose proof (py_max_bounds l2 y);
      pose proof (clamp_bounds l3 h3 z H3)
  end.
  repeat split; lra.
Qed.

(** X9: whatever the BAC level and the random draws, [update_sensors] leaves the
    heart rate within 50..120, the skin conductance at 1.0 or more and the
    temperature within 95..102, and it does not touch the baseline. *)
Theorem update_sensors_clamped (noise : Noise) (sim : SensorSimulator)
    (bac_level : Q) :
  let sim' := Sensor.update_sensors noise sim bac_level in
  Inv.readings_clamped sim' /\
  baseline_heart_rate sim' = baseline_heart_rate sim /\
  baseline_skin_conductance sim' = baseline_skin_conductance sim /\
  baseline_temperature sim' = baseline_temperature sim.
Proof.
  intros sim'.
  destruct (update_sensors_bounds noise sim bac_level) as (Hc & H1 & H2 & H3).
  repeat split; first [apply Hc | assumption].
Qed.

Section SensorEstimate.

Variable exp : Q -> Q.

Lemma py_div_none (a b : Q) : Py.py_div a b = None <-> b == 0.
Proof.
  unfold Py.py_div.
  destruct (Qeq_bool_cases b 0) as [[-> H] | [-> H]].
  - split; [intros _; exact H | reflexivity].
  - split; [discriminate | intros; contradiction].
Qed.

Lemma sensor_estimate_spec (self : BACCalculator)
    (hr sc temp bhr bsc btemp : Q) (last : Z) (w : Q) (g : string)
    (now : Z) :
  (bhr == 0 \/ bsc == 0 \/ btemp == 0 ->
   Calc.estimate_bac_from_sensors exp self hr sc temp bhr bsc btemp
     last w g now = None) /\
  (forall b,
     Calc.estimate_bac_from_sensors exp self hr sc temp bhr bsc btemp
       last w g now = Some b -> 0 <= b).
Proof.
  unfold Calc.estimate_bac_from_sensors.
  destruct (Py.py_div (hr - bhr) bhr) as [d1 |] eqn:E1; simpl.
  2: { split; [reflexivity | discriminate]. }
  destruct (Py.py_div (sc - bsc) bsc) as [d2 |] eqn:E2; simpl.
  2: { split; [reflexivity | discriminate]. }
  destruct (Py.py_div (temp - btemp) btemp) as [d3 |] eqn:E3; simpl.
  2: { split; [reflexivity | discriminate]. }
  assert (N1 : ~ bhr == 0) by (rewrite <- py_div_none; rewrite E1; discriminate).
  assert (N2 : ~ bsc == 0) by (rewrite <- py_div_none; rewrite E2; discriminate).
  assert (N3 : ~ btemp == 0)
    by (rewrite <- py_div_none; rewrite E3; discriminate).
  split.
  - intros [H | [H | H]]; contradiction.
  - intros b Hb. injection Hb as <-. apply max0_nonneg.
Qed.

(** X10: the sensor estimate raises when one of the three baselines is
    zero, and what it returns is never negative, whatever the readings, the
    clock and the decay factor. *)
Theorem sensor_estimate_total (self : BACCalculator)
    (hr sc temp bhr bsc btemp : Q) (last : Z) (w : Q) (g : string)
    (now : Z) :
  (bhr == 0 \/ bsc == 0 \/ btemp == 0 ->
   Calc.estimate_bac_from_sensors exp self hr sc temp bhr bsc btemp
     last w g now = None) /\
  (forall b,
     Calc.estimate_bac_from_sensors exp self hr sc temp bhr bsc btemp
       last w g now = Some b -> 0 <= b).
Proof.
  pose proof (sensor_estimate_spec self hr sc temp bhr bsc btemp last w g now)
    as [Hraise Hnn].
  split; [exact Hraise | exact Hnn].
Qed.


End SensorEstimate.


(** * The session monitor *)

Section Monitor.

Variable exp : Q -> Q.

Lemma update_bac_run (now : Z) (s : RealTimeBACMonitor) :
  Mon._update_bac exp now s
  = match drinks s with
    | [] => (Some tt, Mon.set_current_bac 0.0 s, [])
    | _ :: _ =>
        match
          Calc.calculate_bac_widmark (bac_calculator s) (weight_lbs s)
            (gender s) (map drink_info (drinks s))
            match first_drink_time s with
            | Some first => Py.total_seconds now first / 3600
            | None => 0
            end
        with
        | None => (None, s, [])
        | Some calculated =>
            match last_drink_time s with
            | None => (Some tt, Mon.set_current_bac calculated s, [])
            | Some last =>
                match
                  Calc.estimate_bac_from_sensors exp (bac_calculator s)
                    (current_heart_rate (sensor_simulator s))
                    (current_skin_conductance (sensor_simulator s))
                    (current_temperature (sensor_simulator s))
                    (baseline_heart_rate (sensor_simulator s))
                    (baseline_skin_conductance (sensor_simulator s))
                    (baseline_temperature (sensor_simulator s))
                    last (weight_lbs s) (gender s) now
                with
                | None => (None, s, [])
                | Some sensed =>
                    (Some tt,
                     Mon.set_current_bac (0.7 * calculated + 0.3 * sensed) s,
                     [])
                end
            end
        end
    end.
Proof.
  unfold Mon._update_bac, Mon.bindX, Mon.lift, Mon.of_option, Mon.bind,
    Mon.read, Mon.ret, Mon.assign, Mon.datetime_now; simpl.
  destruct (drinks s) as [| d rest]; [reflexivity |].
  destruct (Calc.calculate_bac_widmark _ _ _ _ _) as [c |]; [| reflexivity].
  destruct (last_drink_time s) as [last |]; [| reflexivity].
  destruct (Calc.estimate_bac_from_sensors _ _ _ _ _ _ _ _ _ _ _ _)
    as [e |]; reflexivity.
Qed.

Lemma widmark_any_nonneg (self : BACCalculator) (w : Q) (g : string)
    (l : list DrinkInfo) (h b : Q) :
  Calc.calculate_bac_widmark self w g l h = Some b -> 0 <= b.
Proof.
  unfold Calc.calculate_bac_widmark.
  destruct (Py.py_div _ _); [| discriminate].
  intros Hb. injection Hb as <-. apply max0_nonneg.
Qed.

Lemma update_bac_cases (now : Z) (s : RealTimeBACMonitor) :
  Mon.printed (Mon._update_bac exp) now s = [] /\
  (Mon.result (Mon._update_bac exp) now s = None ->
   Mon.state_after (Mon._update_bac exp) now s = s) /\
  (Mon.result (Mon._update_bac exp) now s = Some tt ->
   exists b, 0 <= b /\
     Mon.state_after (Mon._update_bac exp) now s = Mon.set_current_bac b s) /\
  (drinks s = [] ->
   Mon._update_bac exp now s = (Some tt, Mon.set_current_bac 0.0 s, [])).
Proof.
  unfold Mon.printed, Mon.result, Mon.state_after. rewrite update_bac_run.
  destruct (drinks s) as [| d rest] eqn:Ed.
  { simpl. repeat split; try discriminate; auto.
    intros _. exists 0.0. split; [discriminate | reflexivity]. }
  destruct (Calc.calculate_bac_widmark _ _ _ _ _) as [c |] eqn:Ec.
  2: { simpl. repeat split; try discriminate; auto. }
  pose proof (widmark_any_nonneg _ _ _ _ _ _ Ec) as Hc.
  destruct (last_drink_time s) as [last |].
  2: { simpl. repeat split; try discriminate; auto.
       intros _. exists c. split; [exact Hc | reflexivity]. }
  destruct (Calc.estimate_bac_from_sensors _ _ _ _ _ _ _ _ _ _ _ _)
    as [e |] eqn:Ee.
  2: { simpl. repeat split; try discriminate; auto. }
  assert (He : 0 <= e).
  { eapply (proj2 (sensor_estimate_spec exp _ _ _ _ _ _ _ _ _ _ _)), Ee. }
  simpl. repeat split; try discriminate; auto.
  intros _. exists (0.7 * c + 0.3 * e). split; [lra | reflexivity].
Qed.

(** X12: [_update_bac] assigns nothing but [current_bac] and prints nothing; the
    value it assigns is never negative; when it raises, the monitor is left
    as it was; and with an empty drink log it sets 0.0 without raising,
    whatever the weight. *)
Theorem update_bac_effect (now : Z) (s : RealTimeBACMonitor) :
  Mon.printed (Mon._update_bac exp) now s = [] /\
  (Mon.result (Mon._update_bac exp) now s = None ->
   Mon.state_after (Mon._update_bac exp) now s = s) /\
  (Mon.result (Mon._update_bac exp) now s = Some tt ->
   exists b, 0 <= b /\
     Mon.state_after (Mon._update_bac exp) now s = Mon.set_current_bac b s) /\
  (drinks s = [] ->
   Mon._update_bac exp now s = (Some tt, Mon.set_current_bac 0.0 s, [])).
Proof.
  destruct (update_bac_cases now s) as (Hout & Hnone & Hsome & Hempty).
  repeat split; assumption.
Qed.

(** X13: [_update_bac] raises, printing nothing and leaving the monitor as
    it was, when the drink log is not empty and either the weight is zero, or
    a last-drink time is set and one of the sensor baselines is zero. *)
Theorem update_bac_raises (now : Z) (s : RealTimeBACMonitor) :
  drinks s <> [] ->
  weight_lbs s == 0 \/
  (last_drink_time s <> None /\
   (baseline_heart_rate (sensor_simulator s) == 0 \/
    baseline_skin_conductance (sensor_simulator s) == 0 \/
    baseline_temperature (sensor_simulator s) == 0)) ->
  Mon._update_bac exp now s = (None, s, []).
Proof.
  intros Hd Hbad. rewrite update_bac_run.
  destruct (drinks s) as [| d rest] eqn:Ed; [congruence |].
  destruct (Calc.calculate_bac_widmark _ _ _ _ _) as [c |] eqn:Ec;
    [| reflexivity].
  destruct Hbad as [Hz | [Hl Hb]].
  { rewrite (widmark_zero_weight_none _ _ _ _ _ Hz) in Ec. discriminate. }
  destruct (last_drink_time s) as [last |]; [| congruence].
  match goal with
  | |- context [Calc.estimate_bac_from_sensors ?e ?c ?a1 ?a2 ?a3
                  ?b1 ?b2 ?b3 ?l ?w ?g ?n] =>
      destruct (sensor_estimate_spec e c a1 a2 a3 b1 b2 b3 l w g n)
        as [Hraise _]
  end.
  rewrite (Hraise Hb). reflexivity.
Qed.

Lemma set_current_bac_same (s : RealTimeBACMonitor) :
  Mon.set_current_bac (current_bac s) s = s.
Proof. destruct s; reflexivity. Qed.

Lemma add_drink_cases (drink_type : string) (v p : option Q)
    (now : Z) (s : RealTimeBACMonitor) :
  let drink :=
    {| drink_info := Calc.add_drink (bac_calculator s) drink_type v p;
       timestamp := now |} in
  let logged :=
    Mon.set_last_drink_time (Some now)
      (Mon.set_first_drink_time (Some (default now (first_drink_time s)))
         (Mon.set_drinks (drinks s ++ [drink]) s)) in
  exists b,
    Mon.state_after (Mon.add_drink exp drink_type v p) now s
    = Mon.set_current_bac b logged /\
    (Mon.result (Mon.add_drink exp drink_type v p) now s = None ->
     b = current_bac s /\
     Mon.printed (Mon.add_drink exp drink_type v p) now s = []) /\
    (Mon.result (Mon.add_drink exp drink_type v p) now s = Some tt ->
     0 <= b /\
     Mon.printed (Mon.add_drink exp drink_type v p) now s
     = [Line ("Added drink: " +:+ drink_type)]).
Proof.
  intros drink logged.
  assert (Hrun : Mon.add_drink exp drink_type v p now s
                 = match Mon._update_bac exp now logged with
                   | (Some _, s2, out) =>
                       (Some tt, s2, out ++ [Line ("Added drink: " +:+ drink_type)])
                   | (None, s2, out) => (None, s2, out)
                   end).
  { unfold Mon.add_drink, Mon.bindX, Mon.lift, Mon.bind, Mon.read, Mon.ret,
      Mon.assign, Mon.datetime_now, Mon.print; simpl.
    subst logged drink.
    destruct (first_drink_time s) as [first |] eqn:Ef; simpl.
    - replace (Mon.set_first_drink_time (Some first)
                 (Mon.set_drinks _ s))
        with (Mon.set_drinks
                (drinks s ++
                 [{| drink_info :=
                       Calc.add_drink (bac_calculator s) drink_type v p;
                     timestamp := now |}]) s)
        by (destruct s; simpl in *; unfold Mon.set_first_drink_time,
              Mon.set_drinks; simpl; subst; reflexivity).
      destruct (Mon._update_bac exp now _) as [[[[] |] s2] out];
        rewrite ?app_nil_r, ?app_nil_l; reflexivity.
    - destruct (Mon._update_bac exp now _) as [[[[] |] s2] out];
        rewrite ?app_nil_r, ?app_nil_l; reflexivity. }
  destruct (update_bac_cases now logged) as (Hout & Hnone & Hsome & _).
  unfold Mon.printed, Mon.result, Mon.state_after in *. rewrite Hrun.
  destruct (Mon._update_bac exp now logged) as [[[[] |] s2] out];
    simpl in *; subst out.
  - destruct (Hsome eq_refl) as (b & Hb & ->). exists b.
    split; [reflexivity | split; [discriminate | intros _; now split]].
  - rewrite (Hnone eq_refl). exists (current_bac s).
    split; [| split; [intros _; now split | discriminate]].
    change (current_bac s) with (current_bac logged).
    symmetry. apply set_current_bac_same.
Qed.

(** X14: the monitor's [add_drink] appends one drink, the dictionary the
    calculator resolves stamped with the clock, at the end of the log; it
    sets the first-drink time only when none is set and always sets the
    last-drink time; beyond that it assigns only [current_bac].  This holds
    also when the recomputation raises, in which case the BAC keeps its old
    value and nothing is printed; otherwise the new BAC is not negative and
    one line is printed. *)
Theorem monitor_add_drink (drink_type : string) (v p : option Q)
    (now : Z) (s : RealTimeBACMonitor) :
  let drink :=
    {| drink_info := Calc.add_drink (bac_calculator s) drink_type v p;
       timestamp := now |} in
  let logged :=
    Mon.set_last_drink_time (Some now)
      (Mon.set_first_drink_time (Some (default now (first_drink_time s)))
         (Mon.set_drinks (drinks s ++ [drink]) s)) in
  exists b,
    Mon.state_after (Mon.add_drink exp drink_type v p) now s
    = Mon.set_current_bac b logged /\
    (Mon.result (Mon.add_drink exp drink_type v p) now s = None ->
     b = current_bac s /\
     Mon.printed (Mon.add_drink exp drink_type v p) now s = []) /\
    (Mon.result (Mon.add_drink exp drink_type v p) now s = Some tt ->
     0 <= b /\
     Mon.printed (Mon.add_drink exp drink_type v p) now s
     = [Line ("Added drink: " +:+ drink_type)]).
Proof.
  intros drink logged.
  destruct (add_drink_cases drink_type v p now s) as (b & Hs & Hn & Hok).
  exists b. split; [exact Hs | split; [exact Hn | exact Hok]].
Qed.

End Monitor.

Lemma check_alerts_cases (now : Z) (s : RealTimeBACMonitor) :
  Mon._check_alerts now s = (tt, s, []) \/
  exists l,
    Mon.current_alert_level s = Some l /\
    Mon._check_alerts now s
    = (tt,
       Mon.set_last_alert_time (Some now)
         (Mon.set_last_alert_level (Some l) s),
       [Alert now (Mon.alert_name l) (current_bac s)
          (recommendation
             (Calc.get_bac_effects (bac_calculator s) (current_bac s)))]).
Proof.
  unfold Mon._check_alerts, mbind, Mon.M_bind, Mon.bind, Mon.read,
    Mon.datetime_now; simpl.
  destruct (Mon.should_alert s (Mon.current_alert_level s) now
            && bool_decide (is_Some (Mon.current_alert_level s))) eqn:Eg;
    [| left; reflexivity].
  apply andb_true_iff in Eg as [_ Hs]. apply bool_decide_eq_true in Hs.
  destruct Hs as [l Hl]. right. exists l. split; [exact Hl |].
  rewrite Hl. reflexivity.
Qed.

(** X16: whatever the thresholds, [_check_alerts] prints at most one line and
    assigns nothing but the level and the time of the last alert, both at
    once, to the current level and to the clock; it never unsets them. *)
Theorem check_alerts_frame (now : Z) (s : RealTimeBACMonitor) :
  let s' := Mon.state_after Mon._check_alerts now s in
  (Mon.printed Mon._check_alerts now s = [] /\ s' = s) \/
  (exists l line,
     Mon.current_alert_level s = Some l /\
     Mon.printed Mon._check_alerts now s = [line] /\
     s' = Mon.set_last_alert_time (Some now)
            (Mon.set_last_alert_level (Some l) s)).
Proof.
  intros s'. subst s'. unfold Mon.printed, Mon.state_after.
  destruct (check_alerts_cases now s) as [-> | (l & Hl & ->)].
  - left. split; reflexivity.
  - right. exists l. eexists. split; [exact Hl | split; reflexivity].
Qed.

(** X17: with the thresholds of a new monitor the alert level follows the effect
    tier: no level for Sober and Mild, warning for Moderate, danger for High
    and critical for Severe Impairment.  So an alert line, when one is
    printed, carries one of the three recommendations that rule out
    driving. *)
Theorem alert_level_matches_effect_tier (now : Z) (s : RealTimeBACMonitor) :
  alert_thresholds s = Mon.default_thresholds ->
  let eff := Calc.get_bac_effects (bac_calculator s) (current_bac s) in
  match Mon.current_alert_level s with
  | None => level eff = "Sober" \/ level eff = "Mild Impairment"
  | Some warning => level eff = "Moderate Impairment"
  | Some danger => level eff = "High Impairment"
  | Some critical => level eff = "Severe Impairment"
  end /\
  forall line, line ∈ Mon.printed Mon._check_alerts now s ->
    line = Alert now "WARNING" (current_bac s) "Do not drive" \/
    line = Alert now "DANGER" (current_bac s)
             "Do not drive, seek safe transportation" \/
    line = Alert now "CRITICAL" (current_bac s)
             "Seek medical attention if needed".
Proof.
  intros Hth eff.
  assert (Htier :
    match Mon.current_alert_level s with
    | None => level eff = "Sober" \/ level eff = "Mild Impairment"
    | Some warning =>
        level eff = "Moderate Impairment" /\ recommendation eff = "Do not drive"
    | Some danger =>
        level eff = "High Impairment" /\
        recommendation eff = "Do not drive, seek safe transportation"
    | Some critical =>
        level eff = "Severe Impairment" /\
        recommendation eff = "Seek medical attention if needed"
    end).
  { subst eff. rewrite (current_alert_level_tier s Hth).
    unfold Spec.tier, Calc.get_bac_effects.
    set (b := current_bac s).
    destruct (Qle_bool_cases 0.15 b) as [[F1 H1] | [F1 H1]];
    destruct (Qle_bool_cases 0.08 b) as [[F2 H2] | [F2 H2]];
    destruct (Qle_bool_cases 0.05 b) as [[F3 H3] | [F3 H3]];
    rewrite ?F1, ?F2, ?F3;
    (destruct (Py.ltb b 0.02) eqn:E1;
      [apply ltb_true in E1 | apply ltb_false in E1]);
    (destruct (Py.ltb b 0.05) eqn:E2;
      [apply ltb_true in E2 | apply ltb_false in E2]);
    (destruct (Py.ltb b 0.08) eqn:E3;
      [apply ltb_true in E3 | apply ltb_false in E3]);
    (destruct (Py.ltb b 0.15) eqn:E4;
      [apply ltb_true in E4 | apply ltb_false in E4]);
    simpl; first [exfalso; lra | tauto]. }
  split.
  - destruct (Mon.current_alert_level s) as [[] |]; tauto.
  - intros line Hin. unfold Mon.printed in Hin.
    destruct (check_alerts_cases now s) as [E | (l & Hl & E)];
      rewrite E in Hin; simpl in Hin.
    + apply elem_of_nil in Hin. contradiction.
    + apply list_elem_of_singleton in Hin. subst line.
      rewrite Hl in Htier. fold eff.
      destruct l; destruct Htier as [_ ->]; simpl; tauto.
Qed.

Lemma alert_level_matches_effect_tier_witness :
  let s := Mon.set_current_bac 0.09 (Mon.init 150 "female") in
  alert_thresholds s = Mon.default_thresholds /\
  let eff := Calc.get_bac_effects (bac_calculator s) (current_bac s) in
  match Mon.current_alert_level s with
  | None => level eff = "Sober" \/ level eff = "Mild Impairment"
  | Some warning => level eff = "Moderate Impairment"
  | Some danger => level eff = "High Impairment"
  | Some critical => level eff = "Severe Impairment"
  end /\
  forall line, line ∈ Mon.printed Mon._check_alerts 5000000 s ->
    line = Alert 5000000 "WARNING" (current_bac s) "Do not drive" \/
    line = Alert 5000000 "DANGER" (current_bac s)
             "Do not drive, seek safe transportation" \/
    line = Alert 5000000 "CRITICAL" (current_bac s)
             "Seek medical attention if needed".
Proof.
  intros s.
  assert (H : alert_thresholds s = Mon.default_thresholds) by reflexivity.
  split; [exact H | exact (alert_level_matches_effect_tier 5000000 s H)].
Defined.

Lemma filter_weaken {A : Type} (P R : A -> Prop)
    `{!forall x, Decision (P x)} `{!forall x, Decision (R x)} (l : list A) :
  (forall x, P x -> R x) -> filter P l `sublist_of` filter R l.
Proof.
  intros Himp. induction l as [| x l IH]; [constructor |].
  rewrite !filter_cons.
  destruct (decide (P x)) as [Hp | Hp]; destruct (decide (R x)) as [Hr | Hr].
  - now apply sublist_skip.
  - exfalso. auto.
  - now apply sublist_cons.
  - exact IH.
Qed.

Lemma filter_all {A : Type} (P : A -> Prop) `{!forall x, Decision (P x)}
    (l : list A) :
  Forall P l -> filter P l = l.
Proof.
  induction 1 as [| x l Hx _ IH]; [reflexivity |].
  rewrite filter_cons. destruct (decide (P x)); [now rewrite IH | contradiction].
Qed.

(** X18: [get_recent_data] changes nothing and prints nothing; it returns, in the
    order of the history, exactly the samples of [bac_history] whose
    timestamp is later than the cutoff; a longer window returns at least the
    samples of a shorter one. *)
Theorem recent_data_window (minutes : Z) (now : Z)
    (s : RealTimeBACMonitor) :
  let recent := Mon.result (Mon.get_recent_data minutes) now s in
  Mon.state_after (Mon.get_recent_data minutes) now s = s /\
  Mon.printed (Mon.get_recent_data minutes) now s = [] /\
  (forall point,
     point ∈ recent
     <-> point ∈ bac_history s /\
         (now - minutes * 60000000 < dp_timestamp point)%Z) /\
  recent `sublist_of` bac_history s /\
  (forall longer : Z, (minutes <= longer)%Z ->
     recent `sublist_of` Mon.result (Mon.get_recent_data longer) now s).
Proof.
  intros recent. subst recent.
  unfold Mon.result, Mon.state_after, Mon.printed, Mon.get_recent_data,
    Py.minutes; simpl.
  split; [reflexivity | split; [reflexivity | split; [| split]]].
  - intros point. rewrite list_elem_of_filter. tauto.
  - apply sublist_filter.
  - intros longer Hle. apply filter_weaken. intros x Hx. lia.
Qed.

(** X19: on a history whose timestamps never go back, as the monitoring loop
    builds it, [get_recent_data] returns a final segment of the history. *)
Theorem recent_data_suffix (minutes : Z) (now : Z) (s : RealTimeBACMonitor) :
  Inv.chronological (bac_history s) ->
  Mon.result (Mon.get_recent_data minutes) now s `suffix_of` bac_history s.
Proof.
  unfold Mon.result, Mon.get_recent_data, Inv.chronological; simpl.
  generalize (bac_history s). intros l Hs.
  induction Hs as [| a l Hs IH Ha]; [reflexivity |].
  rewrite filter_cons. destruct (decide _) as [Hp | Hp].
  - rewrite filter_all; [reflexivity |].
    eapply Forall_impl; [exact Ha |]. simpl. intros q Hq. lia.
  - now apply suffix_cons_r.
Qed.

Lemma recent_data_suffix_witness :
  let s := Mon.set_bac_history
             [mkDataPoint 0 0 70 5 98.6; mkDataPoint 5000000 0 70 5 98.6;
              mkDataPoint 10000000 0 70 5 98.6]
             (Mon.init 150 "female") in
  Inv.chronological (bac_history s) /\
  Mon.result (Mon.get_recent_data 0) 7000000 s `suffix_of` bac_history s.
Proof.
  intros s.
  assert (H : Inv.chronological (bac_history s)).
  { unfold Inv.chronological. simpl.
    repeat (constructor; simpl; try lia). }
  split; [exact H | exact (recent_data_suffix 0 7000000 s H)].
Defined.

(** X20: [start_monitoring] sets the running flag; on a monitor that is already
    running it changes nothing and prints nothing, so starting twice is the
    same as starting once; [stop_monitoring] clears the flag, and neither
    touches the drink log, the BAC, the history or the alert state. *)
Theorem start_stop_monitoring (now now' : Z) (s : RealTimeBACMonitor) :
  let started := Mon.state_after Mon.start_monitoring now s in
  let stopped := Mon.state_after Mon.stop_monitoring now' started in
  is_monitoring started = true /\
  (is_monitoring s = true ->
   started = s /\ Mon.printed Mon.start_monitoring now s = []) /\
  Mon.state_after Mon.start_monitoring now' started = started /\
  Mon.printed Mon.start_monitoring now' started = [] /\
  is_monitoring stopped = false /\
  (drinks stopped = drinks s /\ current_bac stopped = current_bac s /\
   bac_history stopped = bac_history s /\
   last_alert_level stopped = last_alert_level s /\
   last_alert_time stopped = last_alert_time s /\
   alert_cooldown stopped = alert_cooldown s).
Proof.
  intros started stopped. subst started stopped.
  unfold Mon.state_after, Mon.printed, Mon.start_monitoring,
    Mon.stop_monitoring, mbind, Mon.M_bind, Mon.bind, Mon.read, Mon.assign,
    Mon.print, mret, Mon.M_ret, Mon.ret; simpl.
  destruct (is_monitoring s) eqn:E; simpl; rewrite ?E; simpl;
    repeat split; try reflexivity; try assumption; discriminate.
Qed.

Section MonitoringLoop.

Variable exp : Q -> Q.

(** One iteration of the monitoring loop, seen from what [_update_bac]
    returns and what [_check_alerts] does afterwards. *)
Lemma monitor_iteration_run (noise : Noise) (now : Z)
    (s : RealTimeBACMonitor) :
  (Mon.result (Mon._update_bac exp) now s = None /\
   Mon.monitor_iteration exp noise now s
   = (tt, s, [Line "Error in monitoring loop"])) \/
  (exists b,
     0 <= b /\
     Mon.result (Mon._update_bac exp) now s = Some tt /\
     let s2 :=
       Mon.set_sensor_simulator
         (Sensor.update_sensors noise (sensor_simulator s) b)
         (Mon.set_current_bac b s) in
     let point :=
       {| dp_timestamp := now;
          dp_bac := b;
          dp_heart_rate := current_heart_rate (sensor_simulator s2);
          dp_skin_conductance :=
            current_skin_conductance (sensor_simulator s2);
          dp_temperature := current_temperature (sensor_simulator s2) |} in
     let s3 :=
       Mon.set_sensor_history (sensor_history s ++ [point])
         (Mon.set_bac_history (bac_history s ++ [point]) s2) in
     Mon.monitor_iteration exp noise now s
     = (tt,
        Mon.set_data_queue (data_queue s ++ [point])
          (Mon.state_after Mon._check_alerts now s3),
        Mon.printed Mon._check_alerts now s3)).
Proof.
  destruct (update_bac_cases exp now s) as (Ho & Hn & Hs & _).
  unfold Mon.printed, Mon.result, Mon.state_after in *.
  unfold Mon.monitor_iteration, Mon.bindX, Mon.lift, mbind, Mon.M_bind,
    Mon.bind, Mon.ret, Mon.read, Mon.assign, Mon.datetime_now, Mon.print.
  destruct (Mon._update_bac exp now s) as [[r s1] o1].
  cbn [fst snd] in *. subst o1. destruct r as [[] |].
  - right. destruct (Hs eq_refl) as (b & Hb & ->). exists b.
    split; [exact Hb | split; [reflexivity |]].
    cbn [id current_bac sensor_simulator bac_history sensor_history
         Mon.set_current_bac Mon.set_sensor_simulator Mon.set_bac_history
         Mon.set_sensor_history].
    destruct (check_alerts_cases now
      (Mon.set_sensor_history
         (sensor_history s ++
          [{| dp_timestamp := now; dp_bac := b;
              dp_heart_rate :=
                current_heart_rate
                  (Sensor.update_sensors noise (sensor_simulator s) b);
              dp_skin_conductance :=
                current_skin_conductance
                  (Sensor.update_sensors noise (sensor_simulator s) b);
              dp_temperature :=
                current_temperature
                  (Sensor.update_sensors noise (sensor_simulator s) b) |}])
         (Mon.set_bac_history
            (bac_history s ++
             [{| dp_timestamp := now; dp_bac := b;
                 dp_heart_rate :=
                   current_heart_rate
                     (Sensor.update_sensors noise (sensor_simulator s) b);
                 dp_skin_conductance :=
                   current_skin_conductance
                     (Sensor.update_sensors noise (sensor_simulator s) b);
                 dp_temperature :=
                   current_temperature
                     (Sensor.update_sensors noise (sensor_simulator s) b) |}])
            (Mon.set_sensor_simulator
               (Sensor.update_sensors noise (sensor_simulator s) b)
               (Mon.set_current_bac b s)))))
      as [E | (l & _ & E)]; rewrite E; reflexivity.
  - left. rewrite (Hn eq_refl). split; reflexivity.
Qed.

Lemma same_session_trans (s1 s2 s3 : RealTimeBACMonitor) :
  Inv.same_session s1 s2 -> Inv.same_session s2 s3 -> Inv.same_session s1 s3.
Proof.
  unfold Inv.same_session.
  intros (A1 & A2 & A3 & A4 & A5 & A6 & A7 & A8 & A9 & A10)
         (B1 & B2 & B3 & B4 & B5 & B6 & B7 & B8 & B9 & B10).
  repeat split; congruence.
Qed.

(** What one iteration of the monitoring loop leaves behind. *)
Lemma monitor_iteration_step (noise : Noise) (now : Z)
    (s : RealTimeBACMonitor) :
  let s' := Mon.state_after (Mon.monitor_iteration exp noise) now s in
  Inv.same_session s s' /\
  (Inv.alert_state_paired s -> Inv.alert_state_paired s') /\
  ((Mon.result (Mon._update_bac exp) now s = None /\
    s' = s /\
    Mon.printed (Mon.monitor_iteration exp noise) now s
    = [Line "Error in monitoring loop"]) \/
   (Mon.result (Mon._update_bac exp) now s = Some tt /\
    exists point,
      dp_timestamp point = now /\ Inv.sample_ok point /\
      dp_bac point = current_bac s' /\
      bac_history s' = bac_history s ++ [point] /\
      sensor_history s' = sensor_history s ++ [point] /\
      data_queue s' = data_queue s ++ [point] /\
      Inv.readings_clamped (sensor_simulator s') /\
      (length (Mon.printed (Mon.monitor_iteration exp noise) now s) <= 1)%nat)).
Proof.
  intros s'. subst s'. unfold Mon.state_after, Mon.printed.
  destruct (monitor_iteration_run noise now s)
    as [[Hr ->] | (b & Hb & Hr & Hrun)].
  { cbn [fst snd]. split; [repeat split |].
    split; [tauto | left; repeat split; assumption]. }
  cbv zeta in Hrun.
  cbn [sensor_simulator Mon.set_sensor_simulator] in Hrun.
  match type of Hrun with
  | context [Mon.set_data_queue (data_queue s ++ [?pt]) _] =>
      set (point := pt) in *
  end.
  rewrite Hrun. cbn [fst snd].
  destruct (update_sensors_bounds noise (sensor_simulator s) b)
    as (Hclamp & _).
  assert (Hpoint : Inv.sample_ok point).
  { unfold Inv.sample_ok, Inv.readings_clamped in *. subst point; simpl.
    tauto. }
  unfold Mon.state_after, Mon.printed.
  match goal with
  | |- context [Mon._check_alerts now ?s3] =>
      destruct (check_alerts_cases now s3) as [E | (l & _ & E)]; rewrite E
  end; cbn [fst snd].
  - split; [repeat split |]. split.
    { unfold Inv.alert_state_paired; simpl; tauto. }
    right. split; [exact Hr |]. exists point.
    split; [reflexivity | split; [exact Hpoint |]].
    simpl. repeat split; try reflexivity; try apply Hclamp; lia.
  - split; [repeat split |]. split.
    { unfold Inv.alert_state_paired; simpl. intros _. split; discriminate. }
    right. split; [exact Hr |]. exists point.
    split; [reflexivity | split; [exact Hpoint |]].
    simpl. repeat split; try reflexivity; try apply Hclamp; lia.
Qed.

(** X21: one iteration of the monitoring loop either fails in the recomputation,
    and then leaves the monitor exactly as it was and prints the error line;
    or it appends one and the same sample, stamped with the clock, to both
    histories and to the queue, with a BAC that is not negative and readings
    within the clamping ranges, and prints at most one alert.  Either way it
    leaves the drink log, the drink times, the profile, the thresholds, the
    cooldown and the running flag alone. *)
Theorem monitor_iteration_effect (noise : Noise) (now : Z)
    (s : RealTimeBACMonitor) :
  let s' := Mon.state_after (Mon.monitor_iteration exp noise) now s in
  Inv.same_session s s' /\
  ((Mon.result (Mon._update_bac exp) now s = None /\
    s' = s /\
    Mon.printed (Mon.monitor_iteration exp noise) now s
    = [Line "Error in monitoring loop"]) \/
   (Mon.result (Mon._update_bac exp) now s = Some tt /\
    exists point,
      dp_timestamp point = now /\ Inv.sample_ok point /\
      dp_bac point = current_bac s' /\
      bac_history s' = bac_history s ++ [point] /\
      sensor_history s' = sensor_history s ++ [point] /\
      data_queue s' = data_queue s ++ [point] /\
      Inv.readings_clamped (sensor_simulator s') /\
      (length (Mon.printed (Mon.monitor_iteration exp noise) now s) <= 1)%nat)).
Proof.
  intros s'.
  destruct (monitor_iteration_step noise now s) as (Hsame & _ & Hcases).
  split; [exact Hsame | exact Hcases].
Qed.

(** X22: the monitoring loop, over any schedule of clock values and random
    draws, only appends: the same samples, each with a BAC that is not
    negative and readings within the clamping ranges, go to both histories
    and to the queue, at most one for each iteration; the drink log, the
    drink times, the profile, the thresholds, the cooldown and the running
    flag stay as they were; the level and the time of the last alert stay
    set together; and a monitor that is not running is left untouched. *)
Theorem monitor_loop_invariants (schedule : list (Z * Noise))
    (s : RealTimeBACMonitor) :
  let s' := fst (Mon._monitor_loop exp schedule s) in
  Inv.same_session s s' /\
  (Inv.alert_state_paired s -> Inv.alert_state_paired s') /\
  (is_monitoring s = false -> s' = s) /\
  exists added,
    bac_history s' = bac_history s ++ added /\
    sensor_history s' = sensor_history s ++ added /\
    data_queue s' = data_queue s ++ added /\
    Forall Inv.sample_ok added /\
    (length added <= length schedule)%nat.
Proof.
  revert s. induction schedule as [| [now noise] rest IH]; intros s s'.
  { subst s'; simpl. split; [repeat split |]. split; [tauto |].
    split; [reflexivity |]. exists [].
    rewrite !app_nil_r. repeat split; [constructor | simpl; lia]. }
  subst s'. simpl.
  destruct (is_monitoring s) eqn:Erun.
  2: { simpl. split; [repeat split |]. split; [tauto |].
       split; [reflexivity |]. exists [].
       rewrite !app_nil_r. repeat split; [constructor | simpl; lia]. }
  pose proof (monitor_iteration_step noise now s) as Hstep.
  unfold Mon.state_after, Mon.printed in Hstep.
  destruct (Mon.monitor_iteration exp noise now s) as [[[] s1] o1].
  cbn [fst snd] in Hstep. destruct Hstep as (Hsame & Hpair & Hcases).
  specialize (IH s1).
  destruct (Mon._monitor_loop exp rest s1) as [s2 o2].
  cbn [fst snd] in *.
  destruct IH as (Hsame2 & Hpair2 & _ & added & Hb & Hsh & Hq & Hok & Hlen).
  split; [eapply same_session_trans; eassumption |].
  split; [tauto |]. split; [discriminate |].
  destruct Hcases as [(_ & -> & _) | (_ & point & _ & Hpt & _ & Hb1 & Hs1 & Hq1 & _)].
  - exists added. repeat split; try assumption. lia.
  - exists (point :: added).
    rewrite Hb, Hsh, Hq, Hb1, Hs1, Hq1, <- !app_assoc. simpl.
    repeat split; [constructor; assumption | lia].
Qed.

Lemma sorted_map_chronological (l : list DataPoint) :
  StronglySorted Z.le (map dp_timestamp l) -> Inv.chronological l.
Proof.
  unfold Inv.chronological.
  induction l as [| a l IH]; simpl; intros Hs; [constructor |].
  apply StronglySorted_inv in Hs as [Hs Ha].
  constructor; [now apply IH |].
  exact (proj1 (List.Forall_map dp_timestamp _ l) Ha).
Qed.

Lemma sorted_drop_middle (l1 l2 : list Z) (x : Z) :
  StronglySorted Z.le (l1 ++ x :: l2) -> StronglySorted Z.le (l1 ++ l2).
Proof.
  intros Hs. apply StronglySorted_app in Hs as (Hx & H1 & H2).
  apply StronglySorted_inv in H2 as [H2 _].
  apply StronglySorted_app. repeat split; try assumption.
  intros a b Ha Hb. apply Hx; [exact Ha | now right].
Qed.

(** X23: when the clock values of the schedule never go back and none is earlier
    than a timestamp already in the history, the history the monitoring loop
    leaves is in chronological order. *)
Theorem monitor_loop_chronological (schedule : list (Z * Noise))
    (s : RealTimeBACMonitor) :
  StronglySorted Z.le (map dp_timestamp (bac_history s) ++ map fst schedule) ->
  Inv.chronological (bac_history (fst (Mon._monitor_loop exp schedule s))).
Proof.
  revert s. induction schedule as [| [now noise] rest IH]; intros s Hs.
  { simpl in *. rewrite app_nil_r in Hs. now apply sorted_map_chronological. }
  simpl in *. destruct (is_monitoring s).
  2: { simpl. apply sorted_map_chronological.
       now apply StronglySorted_app_1_l in Hs. }
  pose proof (monitor_iteration_step noise now s) as Hstep.
  unfold Mon.state_after, Mon.printed in Hstep.
  destruct (Mon.monitor_iteration exp noise now s) as [[[] s1] o1].
  cbn [fst snd] in Hstep. destruct Hstep as (_ & _ & Hcases).
  specialize (IH s1).
  destruct (Mon._monitor_loop exp rest s1) as [s2 o2]. cbn [fst snd] in *.
  apply IH.
  destruct Hcases as [(_ & -> & _) | (_ & point & Hts & _ & _ & Hb1 & _)].
  - now apply sorted_drop_middle in Hs.
  - rewrite Hb1, map_app, <- app_assoc. simpl. now rewrite Hts.
Qed.

End MonitoringLoop.

Lemma manual_check_state (now : Z) (s : RealTimeBACMonitor) :
  Mon.state_after Mon.check_alerts_manually now s = s.
Proof.
  unfold Mon.state_after, Mon.check_alerts_manually, mbind, Mon.M_bind,
    Mon.bind, Mon.read, Mon.print; simpl.
  repeat match goal with
         | |- context [if ?c then _ else _] => destruct c
         end; reflexivity.
Qed.

(** X24: the level and the time of the last alert are unset together on a new
    monitor and after a reset, and every method keeps them set together: the
    alert check, the manual check, the cooldown setter, [add_drink],
    [_update_bac], the start and the stop of the monitoring and an iteration
    of the monitoring loop. *)
Theorem alert_state_paired_kept (exp : Q -> Q) (now : Z)
    (s : RealTimeBACMonitor)
    (w : Q) (g drink_type : string) (v p : option Q) (seconds : Q)
    (noise : Noise) :
  Inv.alert_state_paired (Mon.init w g) /\
  Inv.alert_state_paired (Mon.state_after Mon.reset_session now s) /\
  (Inv.alert_state_paired s ->
   Inv.alert_state_paired (Mon.state_after Mon._check_alerts now s) /\
   Inv.alert_state_paired (Mon.state_after Mon.check_alerts_manually now s) /\
   Inv.alert_state_paired
     (Mon.state_after (Mon.set_alert_cooldown seconds) now s) /\
   Inv.alert_state_paired
     (Mon.state_after (Mon.add_drink exp drink_type v p) now s) /\
   Inv.alert_state_paired (Mon.state_after (Mon._update_bac exp) now s) /\
   Inv.alert_state_paired (Mon.state_after Mon.start_monitoring now s) /\
   Inv.alert_state_paired (Mon.state_after Mon.stop_monitoring now s) /\
   Inv.alert_state_paired
     (Mon.state_after (Mon.monitor_iteration exp noise) now s)).
Proof.
  split; [split; reflexivity |]. split; [split; reflexivity |].
  intros Hp. repeat split.
  - unfold Mon.state_after.
    destruct (check_alerts_cases now s) as [-> | (l & _ & ->)]; simpl;
      [apply Hp | discriminate].
  - unfold Mon.state_after.
    destruct (check_alerts_cases now s) as [-> | (l & _ & ->)]; simpl;
      [apply Hp | discriminate].
  - rewrite manual_check_state. apply Hp.
  - rewrite manual_check_state. apply Hp.
  - apply Hp.
  - apply Hp.
  - destruct (add_drink_cases exp drink_type v p now s) as (b & -> & _).
    apply Hp.
  - destruct (add_drink_cases exp drink_type v p now s) as (b & -> & _).
    apply Hp.
  - destruct (update_bac_cases exp now s) as (_ & Hn & Hs & _).
    destruct (Mon.result (Mon._update_bac exp) now s) as [[] |] eqn:Er.
    + destruct (Hs eq_refl) as (b & _ & ->). apply Hp.
    + rewrite (Hn eq_refl). apply Hp.
  - destruct (update_bac_cases exp now s) as (_ & Hn & Hs & _).
    destruct (Mon.result (Mon._update_bac exp) now s) as [[] |] eqn:Er.
    + destruct (Hs eq_refl) as (b & _ & ->). apply Hp.
    + rewrite (Hn eq_refl). apply Hp.
  - unfold Mon.state_after, Mon.start_monitoring, mbind, Mon.M_bind,
      Mon.bind, Mon.read, Mon.assign, Mon.print, mret, Mon.M_ret, Mon.ret;
      simpl.
    destruct (is_monitoring s); simpl; apply Hp.
  - unfold Mon.state_after, Mon.start_monitoring, mbind, Mon.M_bind,
      Mon.bind, Mon.read, Mon.assign, Mon.print, mret, Mon.M_ret, Mon.ret;
      simpl.
    destruct (is_monitoring s); simpl; apply Hp.
  - apply Hp.
  - apply Hp.
  - now apply (monitor_iteration_step exp noise now s).
  - now apply (monitor_iteration_step exp noise now s).
Qed.

Lemma total_seconds_pos (now fired : Z) :
  (fired < now)%Z -> 0 < Py.total_seconds now fired.
Proof.
  intros H. unfold Py.total_seconds.
  apply Qlt_shift_div_l; [reflexivity |].
  rewrite Qmult_0_l. change 0 with (inject_Z 0). rewrite <- Zlt_Qlt. lia.
Qed.

(** X25: after a reset, with the thresholds of a new monitor, the alert check
    prints nothing and changes nothing, the manual check reports SAFE, and a
    second reset changes nothing more. *)
Theorem reset_then_quiet (now now' : Z) (s : RealTimeBACMonitor) :
  alert_thresholds s = Mon.default_thresholds ->
  let s' := Mon.state_after Mon.reset_session now s in
  Mon._check_alerts now' s' = (tt, s', []) /\
  Mon.printed Mon.check_alerts_manually now' s'
  = [Manual "SAFE" 0.0 "No significant effects"] /\
  Mon.state_after Mon.reset_session now' s' = s'.
Proof.
  intros Hth s'.
  assert (Hth' : alert_thresholds s' = Mon.default_thresholds) by exact Hth.
  split; [| split].
  - apply (check_alerts_silent now' s' Hth').
    intros [[l Hl] _]. discriminate.
  - unfold Mon.printed, Mon.check_alerts_manually, mbind, Mon.M_bind,
      Mon.bind, Mon.read, Mon.print. simpl. rewrite Hth. reflexivity.
  - subst s'. clear Hth Hth'. destruct s. vm_compute. reflexivity.
Qed.

(** X26: with the cooldown set to 0, a tick whose tier is not none and whose
    clock is later than the last alert always fires again, also when the
    tier has not changed. *)
Theorem cooldown_zero_realerts (t now fired : Z) (s : RealTimeBACMonitor)
    (l : AlertLevel) :
  alert_thresholds s = Mon.default_thresholds ->
  Spec.tier (current_bac s) = Some l ->
  last_alert_time s = Some fired ->
  (fired < now)%Z ->
  let s1 := Mon.state_after (Mon.set_alert_cooldown 0) t s in
  Mon.printed Mon._check_alerts now s1
  = [Alert now (Mon.alert_name l) (current_bac s)
       (recommendation
          (Calc.get_bac_effects (bac_calculator s) (current_bac s)))] /\
  last_alert_level (Mon.state_after Mon._check_alerts now s1) = Some l /\
  last_alert_time (Mon.state_after Mon._check_alerts now s1) = Some now.
Proof.
  intros Hth Hl Hf Hlt s1.
  assert (Hth1 : alert_thresholds s1 = Mon.default_thresholds) by exact Hth.
  assert (Hfire : Spec.fires (last_alert_level s1) (last_alert_time s1)
                    (alert_cooldown s1) (current_bac s1) now).
  { subst s1; simpl. split; [rewrite Hl; eauto |].
    right. split; [rewrite Hl; eauto |].
    rewrite Hf. now apply total_seconds_pos. }
  unfold Mon.printed, Mon.state_after.
  rewrite (check_alerts_fire now s1 Hth1 l Hl Hfire).
  repeat split.
Qed.


Lemma update_bac_raises_witness :
  let s := Mon.set_drinks [mkDrink (mkDrinkInfo 5 12) 0]
             (Mon.init 0 "male") in
  drinks s <> [] /\
  (weight_lbs s == 0 \/
   (last_drink_time s <> None /\
    (baseline_heart_rate (sensor_simulator s) == 0 \/
     baseline_skin_conductance (sensor_simulator s) == 0 \/
     baseline_temperature (sensor_simulator s) == 0))) /\
  Mon._update_bac (fun _ => 1) 1000000%Z s = (None, s, []).
Proof.
  intros s.
  assert (H1 : drinks s <> []) by discriminate.
  assert (H2 : weight_lbs s == 0 \/
               (last_drink_time s <> None /\
                (baseline_heart_rate (sensor_simulator s) == 0 \/
                 baseline_skin_conductance (sensor_simulator s) == 0 \/
                 baseline_temperature (sensor_simulator s) == 0)))
    by (left; reflexivity).
  split; [exact H1 | split; [exact H2 |]].
  exact (update_bac_raises (fun _ => 1) 1000000%Z s H1 H2).
Defined.

Lemma alert_state_paired_kept_witness :
  let s := Mon.set_current_bac 0.09 (Mon.init 150 "female") in
  Inv.alert_state_paired s /\
  Inv.alert_state_paired (Mon.state_after Mon._check_alerts 5000000%Z s) /\
  Inv.alert_state_paired
    (Mon.state_after (Mon.add_drink (fun _ => 1) "beer" None None) 5000000%Z s).
Proof.
  intros s.
  assert (H : Inv.alert_state_paired s) by (split; reflexivity).
  pose proof (proj2 (proj2 (alert_state_paired_kept (fun _ => 1) 5000000%Z s 150 "female"
                              "beer" None None 30 (mkNoise 0 0 0))) H)
    as (H1 & _ & _ & H4 & _).
  split; [exact H | split; [exact H1 | exact H4]].
Defined.

Lemma reset_then_quiet_witness :
  let s := Mon.set_last_alert_level (Some danger)
             (Mon.set_current_bac 0.09 (Mon.init 150 "female")) in
  alert_thresholds s = Mon.default_thresholds /\
  let s' := Mon.state_after Mon.reset_session 0%Z s in
  Mon._check_alerts 5000000%Z s' = (tt, s', []) /\
  Mon.printed Mon.check_alerts_manually 5000000%Z s'
  = [Manual "SAFE" 0.0 "No significant effects"] /\
  Mon.state_after Mon.reset_session 5000000%Z s' = s'.
Proof.
  intros s.
  assert (H : alert_thresholds s = Mon.default_thresholds) by reflexivity.
  split; [exact H | exact (reset_then_quiet 0%Z 5000000%Z s H)].
Defined.

Lemma cooldown_zero_realerts_witness :
  let s := Mon.set_last_alert_time (Some 0%Z)
             (Mon.set_last_alert_level (Some danger)
                (Mon.set_current_bac 0.09 (Mon.init 150 "female"))) in
  alert_thresholds s = Mon.default_thresholds /\
  Spec.tier (current_bac s) = Some danger /\
  last_alert_time s = Some 0%Z /\
  (0 < 1)%Z /\
  let s1 := Mon.state_after (Mon.set_alert_cooldown 0) 0%Z s in
  Mon.printed Mon._check_alerts 1%Z s1
  = [Alert 1%Z (Mon.alert_name danger) (current_bac s)
       (recommendation
          (Calc.get_bac_effects (bac_calculator s) (current_bac s)))] /\
  last_alert_level (Mon.state_after Mon._check_alerts 1%Z s1) = Some danger /\
  last_alert_time (Mon.state_after Mon._check_alerts 1%Z s1) = Some 1%Z.
Proof.
  intros s.
  assert (H1 : alert_thresholds s = Mon.default_thresholds) by reflexivity.
  assert (H2 : Spec.tier (current_bac s) = Some danger) by reflexivity.
  assert (H3 : last_alert_time s = Some 0%Z) by reflexivity.
  assert (H4 : (0 < 1)%Z) by lia.
  split; [exact H1 | split; [exact H2 | split; [exact H3 | split; [exact H4 |]]]].
  exact (cooldown_zero_realerts 0%Z 1%Z 0%Z s danger H1 H2 H3 H4).
Defined.


Lemma monitor_loop_chronological_witness :
  let s := Mon.state_after Mon.start_monitoring 0 (Mon.init 150 "female") in
  let schedule :=
    [(5000000%Z, mkNoise 1 0.2 (-0.1)); (10000000%Z, mkNoise (-2) 0 0.5)] in
  StronglySorted Z.le (map dp_timestamp (bac_history s) ++ map fst schedule) /\
  Inv.chronological
    (bac_history (fst (Mon._monitor_loop (fun _ => 1) schedule s))).
Proof.
  intros s schedule.
  assert (H : StronglySorted Z.le
                (map dp_timestamp (bac_history s) ++ map fst schedule)).
  { simpl. repeat (constructor; simpl; try lia). }
  split; [exact H |
          exact (monitor_loop_chronological (fun _ => 1) schedule s H)].
Defined.
